(** * Margsathi translation routes: a shallow embedding of
    [backend/routes/translation.py] and the properties of its provider
    dispatch, OCR assembly and degraded modes.

    The module talks to three libraries (deep-translator, googletrans,
    EasyOCR), to the uploaded file and to the logger.  Those are kept as
    uninterpreted calls of a small free monad: a handler is a program over
    the calls, and a [World] answers them.  Everything the module itself
    computes (dispatch, string assembly, averaging, error mapping) is a
    plain function. *)

From Stdlib Require Import PrimFloat Uint63 ZArith NArith List Bool String Ascii Lia.
Import ListNotations.

Set Warnings "-inexact-float".

(** ** Python strings *)

(** A Python [str] is a sequence of Unicode code points. *)
Module PyStr.

Definition char := N.
Definition str := list char.

(** A source literal; only ASCII literals are written with it. *)
Definition lit (s : string) : str :=
  List.map N_of_ascii (list_ascii_of_string s).

Fixpoint eqb (a b : str) : bool :=
  match a, b with
  | [], [] => true
  | x :: a', y :: b' => N.eqb x y && eqb a' b'
  | _, _ => false
  end.

(** Truth value of a string: empty strings are falsy. *)
Definition truthy (s : str) : bool :=
  match s with [] => false | _ :: _ => true end.

(** [x or d] where [x] is an optional string. *)
Definition or_else (x : option str) (d : str) : str :=
  match x with
  | Some s => if truthy s then s else d
  | None => d
  end.

(** The code points [str.strip()] removes: CPython's [Py_UNICODE_ISSPACE]. *)
Definition isspace (c : char) : bool :=
  ((9 <=? c) && (c <=? 13) || (28 <=? c) && (c <=? 32)
   || (c =? 133) || (c =? 160) || (c =? 5760)
   || (8192 <=? c) && (c <=? 8202)
   || (c =? 8232) || (c =? 8233) || (c =? 8239) || (c =? 8287)
   || (c =? 12288))%N.

Fixpoint lstrip (s : str) : str :=
  match s with
  | [] => []
  | c :: r => if isspace c then lstrip r else s
  end.

Definition rstrip (s : str) : str := rev (lstrip (rev s)).

Definition strip (s : str) : str := rstrip (lstrip s).

Fixpoint startswith (s prefix : str) : bool :=
  match prefix, s with
  | [], _ => true
  | p :: prefix', c :: s' => N.eqb c p && startswith s' prefix'
  | _ :: _, [] => false
  end.

(** [sep.join(parts)] *)
Fixpoint join (sep : str) (parts : list str) : str :=
  match parts with
  | [] => []
  | [p] => p
  | p :: rest => p ++ sep ++ join sep rest
  end.

(** [str.upper()] on the ASCII range.  Every call of [upper] in the module
    is on a [LanguageCode], two lower-case ASCII letters; cased letters
    outside ASCII are not modelled and are left as they are. *)
Definition upper_char (c : char) : char :=
  if ((97 <=? c) && (c <=? 122))%N then (c - 32)%N else c.

Definition upper (s : str) : str := List.map upper_char s.

(** [dict.get(key, default)] on a dict with string keys, kept in insertion
    order. *)
Fixpoint dict_get {V : Type} (d : list (str * V)) (key : str) (default : V) : V :=
  match d with
  | [] => default
  | (k, v) :: d' => if eqb k key then v else dict_get d' key default
  end.

End PyStr.

Import PyStr.

(** ** Floats *)

(** [sum(xs)]: left-to-right float addition from the start value 0. *)
Definition float_sum (xs : list float) : float :=
  fold_left PrimFloat.add xs 0%float.

Definition float_of_len {A : Type} (xs : list A) : float :=
  PrimFloat.of_uint63 (Uint63.of_Z (Z.of_nat (List.length xs))).

(** ** Exceptions, calls and programs *)

Inductive exn : Type :=
| HTTPException (status_code : Z) (detail : str)
| Exception (msg : str).  (* any other exception; [msg] is [str(e)] *)

Inductive outcome (A : Type) : Type :=
| Ok (a : A)
| Err (e : exn).
Arguments Ok {A} a.
Arguments Err {A} e.

(** What a library call gives back: a value, or an exception with its text. *)
Inductive answer (X : Type) : Type :=
| Returned (x : X)
| Raised (msg : str).
Arguments Returned {X} x.
Arguments Raised {X} msg.

Definition bytes := list Byte.byte.

Record UploadFile : Type := {
  filename : option str;
  content_type : option str;
}.

(** The handle [easyocr.Reader(lang_list, gpu=...)] builds. *)
Record Reader : Type := {
  lang_list : list str;
  gpu : bool;
}.

(** One OCR detection with [detail=1]: bounding box, text, confidence. *)
Definition box := list (Z * Z).
Definition detection : Type := box * str * float.

(** [googletrans] result objects.  [t_confidence] is [None] when the object
    has no [confidence] attribute. *)
Record Translated : Type := {
  t_text : str;
  t_confidence : option float;
}.

Record Detected : Type := {
  d_lang : str;
  d_confidence : float;
}.

Inductive call : Type -> Type :=
| import_googletrans : call (answer unit)
| import_easyocr : call (answer unit)
| easyocr_Reader (langs : list str) (use_gpu : bool) : call (answer Reader)
| file_read (file : UploadFile) : call (answer bytes)
| readtext (reader : Reader) (image : bytes) (detail : Z) : call (answer (list detection))
| GoogleTranslator_translate (source target text : str) : call (answer str)
| GoogleTransAPI_translate (text : str) (src : option str) (dest : str) : call (answer Translated)
| GoogleTransAPI_detect (text : str) : call (answer Detected)
| logger_info (msg : str) : call unit
| logger_error (msg : str) : call unit.

Inductive prog (A : Type) : Type :=
| Ret (a : A)
| Call (X : Type) (c : call X) (k : X -> prog A).
Arguments Ret {A} a.
Arguments Call {A X} c k.

Fixpoint bind {A B : Type} (p : prog A) (f : A -> prog B) : prog B :=
  match p with
  | Ret a => f a
  | Call c k => Call c (fun x => bind (k x) f)
  end.

(** Programs that may raise. *)
Definition M (A : Type) : Type := prog (outcome A).

Definition ret {A : Type} (a : A) : M A := Ret (Ok a).

Definition raise {A : Type} (e : exn) : M A := Ret (Err e).

Definition bindM {A B : Type} (m : M A) (f : A -> M B) : M B :=
  bind m (fun o => match o with Ok a => f a | Err e => Ret (Err e) end).

(** [try: body except e: handler e] *)
Definition try_except {A : Type} (body : M A) (handler : exn -> M A) : M A :=
  bind body (fun o => match o with Ok a => Ret (Ok a) | Err e => handler e end).

(** A library call outside any [try]: its exception propagates. *)
Definition invoke {X : Type} (c : call (answer X)) : M X :=
  Call c (fun a =>
    match a with
    | Returned x => ret x
    | Raised msg => raise (Exception msg)
    end).

(** [try: x = c(); k x  except Exception as e: h str(e)], for a
    continuation [k] that raises nothing itself. *)
Definition try_call {X A : Type} (c : call (answer X))
    (k : X -> M A) (h : str -> M A) : M A :=
  Call c (fun a =>
    match a with
    | Returned x => k x
    | Raised msg => h msg
    end).

(** A call that cannot raise (the logger). *)
Definition perform {X : Type} (c : call X) : M X :=
  Call c (fun x => ret x).

Declare Scope prog_scope.
Delimit Scope prog_scope with prog.
Notation "x <- m ;; k" := (bindM m (fun x => k))
  (at level 61, m at next level, right associativity) : prog_scope.
Notation "' pat <- m ;; k" := (bindM m (fun x => match x with pat => k end))
  (at level 61, pat pattern, m at next level, right associativity) : prog_scope.
Notation "m ;; k" := (bindM m (fun _ => k))
  (at level 61, right associativity) : prog_scope.
Open Scope prog_scope.

(** ** Running a program *)

(** A world answers every call. *)
Definition World : Type := forall X : Type, call X -> X.

Record event : Type := Event { ev_type : Type; ev_call : call ev_type }.
Arguments Event {ev_type} ev_call.

Fixpoint result {A : Type} (w : World) (p : prog A) : A :=
  match p with
  | Ret a => a
  | Call c k => result w (k (w _ c))
  end.

(** The calls a program makes in [w], in order. *)
Fixpoint trace {A : Type} (w : World) (p : prog A) : list event :=
  match p with
  | Ret _ => []
  | Call c k => Event c :: trace w (k (w _ c))
  end.

(** ** Language mappings and the request and response models *)

Module LanguageCode.
Inductive t : Type := en | hi | bn | ta | te | mr | kn | ml | gu.

Definition all : list t := [en; hi; bn; ta; te; mr; kn; ml; gu].

(** The string a code is at run time. *)
Definition to_str (c : t) : str :=
  match c with
  | en => lit "en" | hi => lit "hi" | bn => lit "bn"
  | ta => lit "ta" | te => lit "te" | mr => lit "mr"
  | kn => lit "kn" | ml => lit "ml" | gu => lit "gu"
  end.

Definition of_str (s : str) : option t :=
  find (fun c => PyStr.eqb (to_str c) s) all.
End LanguageCode.

(** [Literal["deep", "google", "mock"]] *)
Module ProviderName.
Inductive t : Type := deep | google | mock.

Definition all : list t := [deep; google; mock].

Definition to_str (p : t) : str :=
  match p with
  | deep => lit "deep" | google => lit "google" | mock => lit "mock"
  end.

Definition of_str (s : str) : option t :=
  find (fun p => PyStr.eqb (to_str p) s) all.
End ProviderName.

Definition LANGUAGE_NAMES : list (str * str) :=
  [ (lit "en", lit "English"); (lit "hi", lit "Hindi");
    (lit "bn", lit "Bengali"); (lit "ta", lit "Tamil");
    (lit "te", lit "Telugu"); (lit "mr", lit "Marathi");
    (lit "kn", lit "Kannada"); (lit "ml", lit "Malayalam");
    (lit "gu", lit "Gujarati") ].

Definition DEEP_TRANSLATOR_CODES : list (str * str) :=
  [ (lit "en", lit "en"); (lit "hi", lit "hi"); (lit "bn", lit "bn");
    (lit "ta", lit "ta"); (lit "te", lit "te"); (lit "mr", lit "mr");
    (lit "kn", lit "kn"); (lit "ml", lit "ml"); (lit "gu", lit "gu") ].

Module TranslationRequest.
Record t : Type := {
  text : str;
  target_lang : LanguageCode.t;
  source_lang : option LanguageCode.t;
  provider : option ProviderName.t;
}.
End TranslationRequest.

Module TranslationResponse.
Record t : Type := {
  original_text : str;
  translated_text : str;
  source_lang : str;
  target_lang : str;
  provider : str;
  confidence : option float;
  is_mock : bool;
}.
End TranslationResponse.

Module ImageTranslationResponse.
Record t : Type := {
  extracted_text : str;
  translated_text : str;
  source_lang : str;
  target_lang : str;
  provider : str;
  ocr_confidence : option float;
  is_mock : bool;
}.
End ImageTranslationResponse.

Module LanguageDetectionResponse.
Record t : Type := {
  detected_lang : str;
  language_name : str;
  confidence : float;
}.
End LanguageDetectionResponse.

(** ** Module state, set once at import *)

Record Globals : Type := {
  GOOGLETRANS_AVAILABLE : bool;
  EASYOCR_READER : option Reader;
  OCR_AVAILABLE : bool;
}.

(** [setup_ocr()]: the value it leaves in the global [EASYOCR_READER]
    together with the boolean it returns. *)
Definition setup_ocr : prog (option Reader * bool) :=
  let failed (e : str) : prog (option Reader * bool) :=
    Call (logger_error (lit "Failed to initialize EasyOCR: " ++ e))
      (fun _ => Ret (None, false)) in
  Call import_easyocr (fun a =>
    match a with
    | Raised e => failed e
    | Returned _ =>
      Call (logger_info
              (lit "Initializing EasyOCR... (this may take a moment on first run)"))
        (fun _ =>
          Call (easyocr_Reader [lit "en"; lit "hi"] false) (fun a' =>
            match a' with
            | Raised e => failed e
            | Returned reader =>
              Call (logger_info (lit "EasyOCR initialized successfully"))
                (fun _ => Ret (Some reader, true))
            end))
    end).

(** Importing the module: the guarded [googletrans] import, then
    [OCR_AVAILABLE = setup_ocr()]. *)
Definition startup : prog Globals :=
  Call import_googletrans (fun a =>
    let available := match a with Returned _ => true | Raised _ => false end in
    bind setup_ocr (fun r =>
      Ret {| GOOGLETRANS_AVAILABLE := available;
             EASYOCR_READER := fst r;
             OCR_AVAILABLE := snd r |})).

(** ** Providers *)

Definition translate_with_deep_translator
    (text source_lang target_lang : str) : M (str * float) :=
  let source_code := dict_get DEEP_TRANSLATOR_CODES source_lang (lit "auto") in
  let target_code := dict_get DEEP_TRANSLATOR_CODES target_lang (lit "en") in
  try_call (GoogleTranslator_translate source_code target_code text)
    (fun translated => ret (translated, 0.95%float))
    (fun e =>
       perform (logger_error (lit "Deep Translator error: " ++ e)) ;;
       raise (HTTPException 500 (lit "Translation failed: " ++ e))).

Definition translate_with_googletrans (g : Globals)
    (text source_lang target_lang : str) : M (str * float) :=
  if negb (GOOGLETRANS_AVAILABLE g) then
    raise (HTTPException 503
             (lit "Google Translate API not available. Install googletrans."))
  else
    try_call
      (GoogleTransAPI_translate text
         (if negb (PyStr.eqb source_lang (lit "auto")) then Some source_lang else None)
         target_lang)
      (fun result =>
         let confidence :=
           match t_confidence result with Some c => c | None => 0.9%float end in
         ret (t_text result, confidence))
      (fun e =>
         perform (logger_error (lit "Google Translate error: " ++ e)) ;;
         raise (HTTPException 500 (lit "Google Translate failed: " ++ e))).

Definition mock_translate (text target_lang : str) : str * float :=
  let marker := lit "[" ++ upper target_lang ++ lit "]" in
  (marker ++ lit " " ++ text, 1.0%float).

(** ** POST /translate *)

Definition translate_text (g : Globals) (payload : TranslationRequest.t)
    : M TranslationResponse.t :=
  let source_lang :=
    or_else (option_map LanguageCode.to_str (TranslationRequest.source_lang payload))
            (lit "auto") in
  let target_lang := LanguageCode.to_str (TranslationRequest.target_lang payload) in
  ' (translated_text, confidence, is_mock, provider) <-
    match TranslationRequest.provider payload with
    | Some ProviderName.mock =>
      let (translated_text, confidence) :=
        mock_translate (TranslationRequest.text payload) target_lang in
      ret (translated_text, confidence, true, lit "mock")
    | Some ProviderName.google =>
      ' (translated_text, confidence) <-
        translate_with_googletrans g (TranslationRequest.text payload)
          source_lang target_lang ;;
      ret (translated_text, confidence, false, lit "google-translate")
    | _ =>
      ' (translated_text, confidence) <-
        translate_with_deep_translator (TranslationRequest.text payload)
          source_lang target_lang ;;
      ret (translated_text, confidence, false, lit "deep-translator")
    end ;;
  let source_lang :=
    if PyStr.eqb source_lang (lit "auto") then lit "en" else source_lang in
  ret {| TranslationResponse.original_text := TranslationRequest.text payload;
         TranslationResponse.translated_text := translated_text;
         TranslationResponse.source_lang := source_lang;
         TranslationResponse.target_lang := target_lang;
         TranslationResponse.provider := provider;
         TranslationResponse.confidence := Some confidence;
         TranslationResponse.is_mock := is_mock |}.

(** POST /simple *)
Definition translate_text_simple (g : Globals) (payload : TranslationRequest.t)
    : M TranslationResponse.t :=
  let provider :=
    match TranslationRequest.provider payload with
    | Some p => Some p
    | None => Some ProviderName.deep
    end in
  translate_text g
    {| TranslationRequest.text := TranslationRequest.text payload;
       TranslationRequest.target_lang := TranslationRequest.target_lang payload;
       TranslationRequest.source_lang := TranslationRequest.source_lang payload;
       TranslationRequest.provider := provider |}.

(** ** POST /translate-image *)

(** The loop over the OCR results: the texts and the confidences, each in
    detection order. *)
Definition collect_parts (results : list detection) : list str * list float :=
  fold_left
    (fun acc d =>
       let '(extracted_parts, confidences) := acc in
       let '(_, text, conf) := d in
       (extracted_parts ++ [text], confidences ++ [conf]))
    results ([], []).

Definition translate_image (g : Globals) (file : UploadFile)
    (target_lang : LanguageCode.t) (source_lang : option LanguageCode.t)
    (provider : ProviderName.t) : M ImageTranslationResponse.t :=
  if negb (OCR_AVAILABLE g) then
    raise (HTTPException 503
             (lit "OCR engine (EasyOCR) is not initialized. Please check server logs."))
  else
  match content_type file with
  | None =>
    (* [None.startswith], outside the [try] *)
    raise (Exception (lit "'NoneType' object has no attribute 'startswith'"))
  | Some ctype =>
  if negb (startswith ctype (lit "image/")) then
    raise (HTTPException 400 (lit "File must be an image"))
  else
  let target := LanguageCode.to_str target_lang in
  try_except
    (image_data <- invoke (file_read file) ;;
     results <-
       match EASYOCR_READER g with
       | Some reader => invoke (readtext reader image_data 1)
       | None =>
         raise (Exception (lit "'NoneType' object has no attribute 'readtext'"))
       end ;;
     let '(extracted_parts, confidences) := collect_parts results in
     let extracted_text := join (lit " ") extracted_parts in
     if negb (truthy (strip extracted_text)) then
       raise (HTTPException 400
                (lit "No text found in image. Please upload an image with clear text."))
     else
     let ocr_confidence :=
       match confidences with
       | _ :: _ => Some (PrimFloat.div (float_sum confidences) (float_of_len confidences))
       | [] => None
       end in
     let source := or_else (option_map LanguageCode.to_str source_lang) (lit "auto") in
     ' (translated_text, is_mock, provider_name) <-
       match provider with
       | ProviderName.mock =>
         let (translated_text, _) := mock_translate extracted_text target in
         ret (translated_text, true, lit "mock")
       | ProviderName.google =>
         ' (translated_text, _) <-
           translate_with_googletrans g extracted_text source target ;;
         ret (translated_text, false, lit "google-translate")
       | ProviderName.deep =>
         ' (translated_text, _) <-
           translate_with_deep_translator extracted_text source target ;;
         ret (translated_text, false, lit "deep-translator")
       end ;;
     ret {| ImageTranslationResponse.extracted_text := strip extracted_text;
            ImageTranslationResponse.translated_text := translated_text;
            ImageTranslationResponse.source_lang :=
              if negb (PyStr.eqb source (lit "auto")) then source else lit "en";
            ImageTranslationResponse.target_lang := target;
            ImageTranslationResponse.provider := provider_name;
            ImageTranslationResponse.ocr_confidence := ocr_confidence;
            ImageTranslationResponse.is_mock := is_mock |})
    (fun e =>
       match e with
       | HTTPException _ _ => raise e
       | Exception msg =>
         perform (logger_error (lit "Image translation error: " ++ msg)) ;;
         raise (HTTPException 500 (lit "Failed to process image: " ++ msg))
       end)
  end.

(** ** POST /detect-language *)

(** The handler's [try] spans its whole body; the call to [detect] is the
    only statement of it that can raise. *)
Definition detect_language (g : Globals) (text : str)
    : M LanguageDetectionResponse.t :=
  let respond (detected_code : str) (confidence : float) :=
    let language_name := dict_get LANGUAGE_NAMES detected_code (lit "Unknown") in
    ret {| LanguageDetectionResponse.detected_lang := detected_code;
           LanguageDetectionResponse.language_name := language_name;
           LanguageDetectionResponse.confidence := confidence |} in
  if GOOGLETRANS_AVAILABLE g then
    try_call (GoogleTransAPI_detect text)
      (fun detection => respond (d_lang detection) (d_confidence detection))
      (fun e =>
         perform (logger_error (lit "Language detection error: " ++ e)) ;;
         raise (HTTPException 500 (lit "Language detection failed: " ++ e)))
  else
    respond (lit "en") 0.5%float.

(** ** GET /status and GET /languages *)

Record Providers : Type := {
  deep_translator : bool;
  googletrans : bool;
  mock : bool;
}.

Record TextTranslation : Type := {
  text_available : bool;
  providers : Providers;
}.

Record ImageTranslation : Type := {
  image_available : bool;
  engine : option str;
  installation_guide : option str;
}.

Record Status : Type := {
  text_translation : TextTranslation;
  image_translation : ImageTranslation;
  supported_languages : nat;
  status : str;
}.

Definition get_translation_status (g : Globals) : Status :=
  {| text_translation :=
       {| text_available := true;
          providers := {| deep_translator := true;
                          googletrans := GOOGLETRANS_AVAILABLE g;
                          mock := true |} |};
     image_translation :=
       {| image_available := OCR_AVAILABLE g;
          engine := if OCR_AVAILABLE g then Some (lit "EasyOCR") else None;
          installation_guide := None |};
     supported_languages := List.length LANGUAGE_NAMES;
     status := lit "healthy" |}.

Record LanguageEntry : Type := { code : str; name : str }.

Definition get_supported_languages : list LanguageEntry :=
  List.map (fun kv => {| code := fst kv; name := snd kv |}) LANGUAGE_NAMES.

(** ** Request validation in front of POST /translate *)

(** A field of the JSON body, as far as the string-typed fields of
    [TranslationRequest] are concerned. *)
Inductive field : Type :=
| Missing
| Null
| Str (s : str).

Record RawRequest : Type := {
  raw_text : field;
  raw_target_lang : field;
  raw_source_lang : field;
  raw_provider : field;
}.

(** The declarations of [TranslationRequest]: a required [text] of 1 to 5000
    characters, a required [target_lang] among the language codes, an optional
    [source_lang] defaulting to [None], an optional [provider] among the three
    literals defaulting to ["deep"].  [None] is a rejected body. *)
Definition validate (raw : RawRequest) : option TranslationRequest.t :=
  match raw_text raw with
  | Str text =>
    if negb ((1 <=? List.length text)%nat && (List.length text <=? 5000)%nat)
    then None else
    match raw_target_lang raw with
    | Str t =>
      match LanguageCode.of_str t with
      | None => None
      | Some target_lang =>
        let source_lang :=
          match raw_source_lang raw with
          | Missing | Null => Some None
          | Str s => option_map Some (LanguageCode.of_str s)
          end in
        let provider :=
          match raw_provider raw with
          | Missing => Some (Some ProviderName.deep)
          | Null => Some None
          | Str s => option_map Some (ProviderName.of_str s)
          end in
        match source_lang, provider with
        | Some source_lang, Some provider =>
          Some {| TranslationRequest.text := text;
                  TranslationRequest.target_lang := target_lang;
                  TranslationRequest.source_lang := source_lang;
                  TranslationRequest.provider := provider |}
        | _, _ => None
        end
      end
    | _ => None
    end
  | _ => None
  end.

(** What the route answers: the framework's validation error, or whatever
    the handler returned or raised. *)
Inductive reply (A : Type) : Type :=
| RequestValidationError
| Handled (o : outcome A).
Arguments RequestValidationError {A}.
Arguments Handled {A} o.

Definition post_translate (g : Globals) (raw : RawRequest)
    : prog (reply TranslationResponse.t) :=
  match validate raw with
  | None => Ret RequestValidationError
  | Some payload => bind (translate_text g payload) (fun o => Ret (Handled o))
  end.

Definition with_provider (raw : RawRequest) (p : field) : RawRequest :=
  {| raw_text := raw_text raw;
     raw_target_lang := raw_target_lang raw;
     raw_source_lang := raw_source_lang raw;
     raw_provider := p |}.

(** ** Worlds built from backend behaviours *)

Record Backends : Type := {
  googletrans_import : answer unit;
  easyocr_import : answer unit;
  reader_init : list str -> bool -> answer Reader;
  upload_read : UploadFile -> answer bytes;
  reader_readtext : Reader -> bytes -> Z -> answer (list detection);
  deep_translate : str -> str -> str -> answer str;
  google_translate : str -> option str -> str -> answer Translated;
  google_detect : str -> answer Detected;
}.

Definition world_of (b : Backends) : World :=
  fun X c =>
    match c in call X return X with
    | import_googletrans => googletrans_import b
    | import_easyocr => easyocr_import b
    | easyocr_Reader langs use_gpu => reader_init b langs use_gpu
    | file_read file => upload_read b file
    | readtext reader image detail => reader_readtext b reader image detail
    | GoogleTranslator_translate source target text => deep_translate b source target text
    | GoogleTransAPI_translate text src dest => google_translate b text src dest
    | GoogleTransAPI_detect text => google_detect b text
    | logger_info _ => tt
    | logger_error _ => tt
    end.

(** Nothing optional is installed and every backend call raises. *)
Definition offline : Backends :=
  {| googletrans_import := Raised (lit "No module named 'googletrans'");
     easyocr_import := Raised (lit "No module named 'easyocr'");
     reader_init := fun _ _ => Raised (lit "unavailable");
     upload_read := fun _ => Raised (lit "unavailable");
     reader_readtext := fun _ _ _ => Raised (lit "unavailable");
     deep_translate := fun _ _ _ => Raised (lit "unavailable");
     google_translate := fun _ _ _ => Raised (lit "unavailable");
     google_detect := fun _ => Raised (lit "unavailable") |}.

(** Everything is installed; OCR finds [results] in every image and the
    translators answer with a tagged copy of the text. *)
Definition online (results : list detection) : Backends :=
  {| googletrans_import := Returned tt;
     easyocr_import := Returned tt;
     reader_init := fun langs use_gpu =>
       Returned {| lang_list := langs; gpu := use_gpu |};
     upload_read := fun _ => Returned [];
     reader_readtext := fun _ _ _ => Returned results;
     deep_translate := fun _ target text =>
       Returned (lit "<" ++ target ++ lit "> " ++ text);
     google_translate := fun text _ dest =>
       Returned {| t_text := lit "<" ++ dest ++ lit "> " ++ text;
                   t_confidence := None |};
     google_detect := fun _ =>
       Returned {| d_lang := lit "hi"; d_confidence := 1.0%float |} |}.

Definition png : UploadFile :=
  {| filename := Some (lit "sign.png"); content_type := Some (lit "image/png") |}.

Definition pdf : UploadFile :=
  {| filename := Some (lit "sign.pdf"); content_type := Some (lit "application/pdf") |}.

(** The source language a handler works with: the given code, or ["auto"]. *)
Definition resolved_source (source_lang : option LanguageCode.t) : str :=
  or_else (option_map LanguageCode.to_str source_lang) (lit "auto").

(** The text of a detection and its confidence. *)
Definition fragment_text (d : detection) : str := snd (fst d).
Definition fragment_confidence (d : detection) : float := snd d.

(** Empty or made of whitespace only. *)
Definition blank (s : str) : bool := forallb isspace s.

(** The fragment texts joined with one space, in detection order. *)
Definition joined_text (results : list detection) : str :=
  join (lit " ") (List.map fragment_text results).

(** The arithmetic mean of the fragment confidences. *)
Definition mean_confidence (results : list detection) : float :=
  PrimFloat.div (float_sum (List.map fragment_confidence results))
                (float_of_len results).

(** The calls that reach a translation engine. *)
Definition is_translation_call (ev : event) : bool :=
  match ev_call ev with
  | GoogleTranslator_translate _ _ _ => true
  | GoogleTransAPI_translate _ _ _ => true
  | _ => false
  end.

(** The calls that touch the upload or the OCR engine. *)
Definition is_extraction_call (ev : event) : bool :=
  match ev_call ev with
  | file_read _ => true
  | readtext _ _ _ => true
  | _ => false
  end.

Definition ocr_unavailable_error : exn :=
  HTTPException 503
    (lit "OCR engine (EasyOCR) is not initialized. Please check server logs.").

Definition no_text_error : exn :=
  HTTPException 400
    (lit "No text found in image. Please upload an image with clear text.").

Definition not_an_image_error : exn :=
  HTTPException 400 (lit "File must be an image").

Definition googletrans_unavailable_error : exn :=
  HTTPException 503
    (lit "Google Translate API not available. Install googletrans.").

(** ** Sample data *)

(** Two fragments, as EasyOCR returns them. *)
Definition hi_there : list detection :=
  [ ([(0, 0); (40, 0); (40, 20); (0, 20)]%Z, lit "Hi", 0.9%float);
    ([(50, 0); (120, 0); (120, 20); (50, 20)]%Z, lit "there", 0.7%float) ].

(** One fragment whose text starts with a space. *)
Definition padded : list detection :=
  [ ([(0, 0); (40, 0); (40, 20); (0, 20)]%Z, lit " Hi", 0.9%float) ].

(** A /translate body that leaves [source_lang] and [provider] out. *)
Definition hello_body : RawRequest :=
  {| raw_text := Str (lit "hello");
     raw_target_lang := Str (lit "hi");
     raw_source_lang := Missing;
     raw_provider := Missing |}.

Definition hello_request (provider : option ProviderName.t) : TranslationRequest.t :=
  {| TranslationRequest.text := lit "hello";
     TranslationRequest.target_lang := LanguageCode.hi;
     TranslationRequest.source_lang := None;
     TranslationRequest.provider := provider |}.

(** No leading and no trailing whitespace. *)
Definition trimmed (s : str) : bool :=
  match s with [] => true | c :: _ => negb (isspace c) end
  && match rev s with [] => true | c :: _ => negb (isspace c) end.

(** ** Response fields *)

(** The [source_lang] a response reports: the given code, or "en". *)
Definition reported_source (source_lang : option LanguageCode.t) : str :=
  match source_lang with
  | Some c => LanguageCode.to_str c
  | None => lit "en"
  end.


(** * Properties *)

Section RunLemmas.
Variable w : World.

Lemma result_bind (A B : Type) (p : prog A) (f : A -> prog B) :
  result w (bind p f) = result w (f (result w p)).
Proof. induction p as [a | X c k IH]; cbn; auto. Qed.

Lemma trace_bind (A B : Type) (p : prog A) (f : A -> prog B) :
  trace w (bind p f) = trace w p ++ trace w (f (result w p)).
Proof.
  induction p as [a | X c k IH]; cbn; auto.
  now rewrite IH.
Qed.

Lemma result_bindM (A B : Type) (m : M A) (f : A -> M B) :
  result w (bindM m f) =
  match result w m with
  | Ok a => result w (f a)
  | Err e => Err e
  end.
Proof. unfold bindM. rewrite result_bind. now destruct (result w m). Qed.

Lemma result_try_except (A : Type) (body : M A) (handler : exn -> M A) :
  result w (try_except body handler) =
  match result w body with
  | Ok a => Ok a
  | Err e => result w (handler e)
  end.
Proof. unfold try_except. rewrite result_bind. now destruct (result w body). Qed.

Lemma trace_bindM (A B : Type) (m : M A) (f : A -> M B) :
  trace w (bindM m f) =
  trace w m ++ match result w m with
               | Ok a => trace w (f a)
               | Err _ => []
               end.
Proof. unfold bindM. rewrite trace_bind. now destruct (result w m). Qed.

Lemma trace_try_except (A : Type) (body : M A) (handler : exn -> M A) :
  trace w (try_except body handler) =
  trace w body ++ match result w body with
                  | Ok _ => []
                  | Err e => trace w (handler e)
                  end.
Proof. unfold try_except. rewrite trace_bind. now destruct (result w body). Qed.
End RunLemmas.

(** ** Strings *)

Lemma eqb_eq (a b : str) : PyStr.eqb a b = true <-> a = b.
Proof.
  revert b; induction a as [| x a IH]; intros [| y b]; cbn; split;
    try discriminate; try reflexivity.
  - intros H. apply andb_true_iff in H as [Hx Hr].
    apply N.eqb_eq in Hx. apply IH in Hr. now subst.
  - intros H. injection H as -> ->.
    apply andb_true_iff. split; [apply N.eqb_refl | now apply IH].
Qed.

Lemma to_str_truthy (c : LanguageCode.t) : truthy (LanguageCode.to_str c) = true.
Proof. now destruct c. Qed.

Lemma to_str_not_auto (c : LanguageCode.t) :
  PyStr.eqb (LanguageCode.to_str c) (lit "auto") = false.
Proof. now destruct c. Qed.

Lemma resolved_source_auto (source_lang : option LanguageCode.t) :
  resolved_source source_lang = lit "auto" <-> source_lang = None.
Proof.
  split; [| now intros ->].
  destruct source_lang as [c |]; [| reflexivity].
  unfold resolved_source; cbn. rewrite to_str_truthy.
  intros H. apply eqb_eq in H. now rewrite to_str_not_auto in H.
Qed.

Lemma lstrip_nil_iff (s : str) : lstrip s = [] <-> blank s = true.
Proof.
  induction s as [| c r IH]; cbn; [tauto |].
  destruct (isspace c); cbn; [exact IH |].
  split; discriminate.
Qed.

Lemma lstrip_blank (s : str) : blank (lstrip s) = true -> lstrip s = [].
Proof.
  induction s as [| c r IH]; cbn; [reflexivity |].
  destruct (isspace c) eqn:Hc; [exact IH |].
  cbn. now rewrite Hc.
Qed.

Lemma blank_rev (s : str) : blank (rev s) = blank s.
Proof.
  unfold blank. induction s as [| c r IH]; cbn; [reflexivity |].
  rewrite forallb_app, IH; cbn. rewrite andb_true_r. apply andb_comm.
Qed.

Lemma strip_nil_iff (s : str) : strip s = [] <-> blank s = true.
Proof.
  unfold strip, rstrip. split.
  - intros H. apply lstrip_nil_iff.
    apply lstrip_blank. rewrite <- blank_rev. apply lstrip_nil_iff.
    apply (f_equal (@rev char)) in H. now rewrite rev_involutive in H.
  - intros H. apply lstrip_nil_iff in H. now rewrite H.
Qed.

Lemma truthy_strip (s : str) : truthy (strip s) = negb (blank s).
Proof.
  destruct (blank s) eqn:Hb.
  - apply strip_nil_iff in Hb. now rewrite Hb.
  - destruct (strip s) eqn:Hs; [| reflexivity].
    apply strip_nil_iff in Hs. congruence.
Qed.

Lemma collect_parts_map (results : list detection) :
  collect_parts results =
  (List.map fragment_text results, List.map fragment_confidence results).
Proof.
  unfold collect_parts.
  enough (G : forall parts confs,
             fold_left
               (fun acc d =>
                  let '(extracted_parts, confidences) := acc in
                  let '(_, text, conf) := d in
                  (extracted_parts ++ [text], confidences ++ [conf]))
               results (parts, confs) =
             (parts ++ List.map fragment_text results,
              confs ++ List.map fragment_confidence results))
    by apply G.
  induction results as [| [[b t] c] rest IH]; intros parts confs; cbn.
  - now rewrite !app_nil_r.
  - rewrite IH. now rewrite <- !app_assoc.
Qed.

(** ** Results of the providers *)

Arguments lit : simpl never.
Arguments dict_get : simpl never.
Arguments PyStr.eqb : simpl never.
Arguments upper : simpl never.
Arguments strip : simpl never.
Arguments join : simpl never.
Arguments LanguageCode.to_str : simpl never.
Arguments or_else : simpl never.
Arguments collect_parts : simpl never.
Arguments float_sum : simpl never.
Arguments float_of_len : simpl never.
Arguments bindM : simpl never.
Arguments try_except : simpl never.

Section Providers.
Variables (g : Globals) (w : World).

Lemma result_deep_translator (text source_lang target_lang : str) :
  result w (translate_with_deep_translator text source_lang target_lang) =
  match w _ (GoogleTranslator_translate
               (dict_get DEEP_TRANSLATOR_CODES source_lang (lit "auto"))
               (dict_get DEEP_TRANSLATOR_CODES target_lang (lit "en")) text) with
  | Returned translated => Ok (translated, 0.95%float)
  | Raised e => Err (HTTPException 500 (lit "Translation failed: " ++ e))
  end.
Proof.
  unfold translate_with_deep_translator, try_call; cbn.
  now destruct (w _ _).
Qed.

Lemma result_googletrans (text source_lang target_lang : str) :
  result w (translate_with_googletrans g text source_lang target_lang) =
  if GOOGLETRANS_AVAILABLE g then
    match w _ (GoogleTransAPI_translate text
                 (if negb (PyStr.eqb source_lang (lit "auto"))
                  then Some source_lang else None) target_lang) with
    | Returned r =>
      Ok (t_text r, match t_confidence r with Some c => c | None => 0.9%float end)
    | Raised e => Err (HTTPException 500 (lit "Google Translate failed: " ++ e))
    end
  else Err googletrans_unavailable_error.
Proof.
  unfold translate_with_googletrans, try_call.
  destruct (GOOGLETRANS_AVAILABLE g); cbn; [| reflexivity].
  now destruct (w _ _).
Qed.
End Providers.


Arguments translate_with_deep_translator : simpl never.
Arguments translate_with_googletrans : simpl never.

(** Case analysis on what the world answers to the next call. *)
Ltac ask_world :=
  match goal with
  | w : World |- context [match ?v ?X ?c with _ => _ end] =>
    constr_eq v w; destruct (w X c) eqn:?
  | |- context [if GOOGLETRANS_AVAILABLE ?g then _ else _] =>
    destruct (GOOGLETRANS_AVAILABLE g) eqn:?
  end.

Ltac run_handler :=
  repeat (cbn;
          rewrite ?result_bindM, ?result_try_except,
                  ?result_googletrans, ?result_deep_translator;
          try ask_world).


(** ** The OCR stage of /translate-image *)

Lemma float_of_len_map {A B : Type} (f : A -> B) (xs : list A) :
  float_of_len (List.map f xs) = float_of_len xs.
Proof. unfold float_of_len. now rewrite length_map. Qed.

Lemma blank_join_nil : blank (join (lit " ") []) = true.
Proof. reflexivity. Qed.

(** A successful /translate-image call went through every stage. *)
Lemma translate_image_ok_inv (g : Globals) (w : World) (file : UploadFile)
    (target_lang : LanguageCode.t) (source_lang : option LanguageCode.t)
    (provider : ProviderName.t) (resp : ImageTranslationResponse.t) :
  result w (translate_image g file target_lang source_lang provider) = Ok resp ->
  exists ctype reader image results,
    OCR_AVAILABLE g = true /\
    content_type file = Some ctype /\
    startswith ctype (lit "image/") = true /\
    EASYOCR_READER g = Some reader /\
    w _ (file_read file) = Returned image /\
    w _ (readtext reader image 1) = Returned results /\
    results <> [] /\
    blank (joined_text results) = false /\
    ImageTranslationResponse.extracted_text resp = strip (joined_text results) /\
    ImageTranslationResponse.ocr_confidence resp = Some (mean_confidence results) /\
    ImageTranslationResponse.source_lang resp =
      (if PyStr.eqb (resolved_source source_lang) (lit "auto")
       then lit "en" else resolved_source source_lang) /\
    ImageTranslationResponse.is_mock resp =
      match provider with ProviderName.mock => true | _ => false end.
Proof.
  unfold translate_image, joined_text, mean_confidence, resolved_source.
  destruct (OCR_AVAILABLE g) eqn:Hocr; cbn; [| discriminate].
  destruct (content_type file) as [ctype |] eqn:Hct; [| discriminate].
  destruct (startswith ctype (lit "image/")) eqn:Hsw; cbn; [| discriminate].
  rewrite result_try_except, result_bindM; cbn.
  destruct (w _ (file_read file)) as [image | msg] eqn:Hread; cbn; [| discriminate].
  rewrite result_bindM.
  destruct (EASYOCR_READER g) as [reader |] eqn:Hreader; cbn; [| discriminate].
  destruct (w _ (readtext reader image 1)) as [results | msg] eqn:Hres; cbn;
    [| discriminate].
  rewrite collect_parts_map, truthy_strip, negb_involutive.
  destruct (blank (join (lit " ") (List.map fragment_text results))) eqn:Hblank;
    cbn; [discriminate |].
  intros H. exists ctype, reader, image, results.
  assert (Hne : results <> []).
  { intros ->. cbn in Hblank. now rewrite blank_join_nil in Hblank. }
  repeat (split; [assumption || reflexivity |]).
  rewrite <- (float_of_len_map fragment_confidence results).
  destruct results as [| d rest]; [congruence |].
  revert H. destruct provider; run_handler; try discriminate.
  all: intros H; injection H as H; subst resp; cbn.
  all: repeat split; now destruct (PyStr.eqb _ _).
Qed.

Section OcrStage.
Variables (g : Globals) (w : World) (file : UploadFile).
Variables (ctype : str) (reader : Reader) (image : bytes).
Variable results : list detection.
Hypothesis Hocr : OCR_AVAILABLE g = true.
Hypothesis Hreader : EASYOCR_READER g = Some reader.
Hypothesis Hct : content_type file = Some ctype.
Hypothesis Hsw : startswith ctype (lit "image/") = true.
Hypothesis Hread : w _ (file_read file) = Returned image.
Hypothesis Hres : w _ (readtext reader image 1) = Returned results.

Ltac ocr_stage :=
  unfold translate_image, joined_text;
  rewrite Hocr; cbn; rewrite Hct, Hsw; cbn;
  rewrite ?result_try_except, ?trace_try_except, ?result_bindM, ?trace_bindM; cbn;
  rewrite Hread; cbn;
  rewrite ?result_bindM, ?trace_bindM, Hreader; cbn; rewrite Hres; cbn;
  rewrite collect_parts_map, truthy_strip, negb_involutive.

Lemma translate_image_blank target_lang source_lang provider :
  blank (joined_text results) = true ->
  result w (translate_image g file target_lang source_lang provider) =
  Err no_text_error.
Proof.
  intros Hblank. ocr_stage. unfold joined_text in Hblank.
  now rewrite Hblank.
Qed.

Lemma translate_image_mock target_lang source_lang :
  blank (joined_text results) = false ->
  exists resp,
    result w (translate_image g file target_lang source_lang ProviderName.mock)
    = Ok resp.
Proof.
  intros Hblank. ocr_stage. unfold joined_text in Hblank.
  rewrite Hblank. cbn. rewrite result_bindM. cbn. eauto.
Qed.

Lemma translate_image_google_unavailable target_lang source_lang :
  GOOGLETRANS_AVAILABLE g = false ->
  blank (joined_text results) = false ->
  result w (translate_image g file target_lang source_lang ProviderName.google)
  = Err googletrans_unavailable_error.
Proof.
  intros Hg Hblank. ocr_stage. unfold joined_text in Hblank.
  rewrite Hblank. cbn. rewrite !result_bindM, result_googletrans, Hg.
  reflexivity.
Qed.
End OcrStage.

Lemma strip_trimmed (s : str) : trimmed s = true -> strip s = s.
Proof.
  unfold trimmed, strip, rstrip. intros H.
  apply andb_true_iff in H as [Hl Hr].
  assert (El : lstrip s = s).
  { destruct s as [| c r]; [reflexivity |]. cbn.
    now destruct (isspace c). }
  rewrite El.
  assert (Er : lstrip (rev s) = rev s).
  { destruct (rev s) as [| c r]; [reflexivity |]. cbn.
    now destruct (isspace c). }
  rewrite Er. apply rev_involutive.
Qed.

(** ** Start-up *)

Lemma startup_OCR_AVAILABLE (w : World) :
  OCR_AVAILABLE (result w startup) = snd (result w setup_ocr).
Proof. unfold startup; cbn. now rewrite result_bind. Qed.

Lemma startup_EASYOCR_READER (w : World) :
  EASYOCR_READER (result w startup) = fst (result w setup_ocr).
Proof. unfold startup; cbn. now rewrite result_bind. Qed.

Lemma startup_GOOGLETRANS_AVAILABLE (w : World) :
  GOOGLETRANS_AVAILABLE (result w startup) =
  match w _ import_googletrans with Returned _ => true | Raised _ => false end.
Proof. unfold startup; cbn. now rewrite result_bind. Qed.


(** After start-up a reader is there whenever OCR is flagged available. *)
Lemma startup_reader_ready (w : World) :
  OCR_AVAILABLE (result w startup) = true ->
  exists reader, EASYOCR_READER (result w startup) = Some reader.
Proof.
  rewrite startup_OCR_AVAILABLE, startup_EASYOCR_READER.
  unfold setup_ocr; cbn.
  destruct (w _ import_easyocr) as [[] | msg]; cbn; [| discriminate].
  destruct (w _ (easyocr_Reader _ _)) as [reader | msg]; cbn; [| discriminate].
  eauto.
Qed.

(** ** The claims *)

(** C1: when [source_lang] is omitted, or resolves to "auto", the
    [source_lang] of every result of /translate is the literal "en", and so is
    the [source_lang] of every successful result of /translate-image. *)
Theorem auto_source_is_reported_as_en :
  (forall (g : Globals) (w : World) (payload : TranslationRequest.t)
          (resp : TranslationResponse.t),
      TranslationRequest.source_lang payload = None \/
      resolved_source (TranslationRequest.source_lang payload) = lit "auto" ->
      result w (translate_text g payload) = Ok resp ->
      TranslationResponse.source_lang resp = lit "en") /\
  (forall (g : Globals) (w : World) (file : UploadFile)
          (target_lang : LanguageCode.t) (source_lang : option LanguageCode.t)
          (provider : ProviderName.t) (resp : ImageTranslationResponse.t),
      source_lang = None \/ resolved_source source_lang = lit "auto" ->
      result w (translate_image g file target_lang source_lang provider) = Ok resp ->
      ImageTranslationResponse.source_lang resp = lit "en").
Proof.
  split.
  - intros g w [text target sl provider] resp Hsl; cbn in Hsl.
    assert (sl = None) as -> by (destruct Hsl; [| apply resolved_source_auto]; auto).
    unfold translate_text.
    destruct provider as [[| |] |]; run_handler; try discriminate.
    all: intros H; injection H as H; now subst resp.
  - intros g w file target sl provider resp Hsl Hok.
    assert (sl = None) as -> by (destruct Hsl; [| apply resolved_source_auto]; auto).
    apply translate_image_ok_inv in Hok
      as (ct & rd & im & rs & _ & _ & _ & _ & _ & _ & _ & _ & _ & _ & Hsrc & _).
    exact Hsrc.
Qed.

Lemma auto_source_is_reported_as_en_witness :
  (TranslationRequest.source_lang (hello_request (Some ProviderName.deep)) = None \/
   resolved_source (TranslationRequest.source_lang
                      (hello_request (Some ProviderName.deep))) = lit "auto") /\
  (exists resp,
      result (world_of (online []))
             (translate_text (result (world_of (online [])) startup)
                             (hello_request (Some ProviderName.deep))) = Ok resp /\
      TranslationResponse.source_lang resp = lit "en") /\
  (exists resp,
      result (world_of (online hi_there))
             (translate_image (result (world_of (online hi_there)) startup)
                              png LanguageCode.hi None ProviderName.deep) = Ok resp /\
      ImageTranslationResponse.source_lang resp = lit "en").
Proof.
  split; [left; reflexivity |]. split.
  - eexists; split; [reflexivity |].
    apply (proj1 auto_source_is_reported_as_en
                 (result (world_of (online [])) startup) (world_of (online []))
                 (hello_request (Some ProviderName.deep))).
    + left; reflexivity.
    + reflexivity.
  - eexists; split; [reflexivity |].
    apply (proj2 auto_source_is_reported_as_en
                 (result (world_of (online hi_there)) startup)
                 (world_of (online hi_there)) png LanguageCode.hi None
                 ProviderName.deep).
    + left; reflexivity.
    + reflexivity.
Defined.

(** C2: for every text and target language the mock provider returns
    "[" + upper(target_lang) + "] " + text with confidence 1.0; a mock
    /translate call makes no call at all, cannot fail and answers the same in
    every world; "hello" to "hi" gives "[HI] hello", 1.0 and is_mock. *)
Theorem mock_provider_is_a_fixed_prefix :
  (forall (text : str) (target_lang : LanguageCode.t),
      mock_translate text (LanguageCode.to_str target_lang) =
      (lit "[" ++ upper (LanguageCode.to_str target_lang) ++ lit "] " ++ text,
       1.0%float)) /\
  (forall (g : Globals) (w : World) (text : str) (target_lang : LanguageCode.t)
          (source_lang : option LanguageCode.t),
      let payload :=
        {| TranslationRequest.text := text;
           TranslationRequest.target_lang := target_lang;
           TranslationRequest.source_lang := source_lang;
           TranslationRequest.provider := Some ProviderName.mock |} in
      trace w (translate_text g payload) = [] /\
      exists resp,
        result w (translate_text g payload) = Ok resp /\
        TranslationResponse.translated_text resp =
          lit "[" ++ upper (LanguageCode.to_str target_lang) ++ lit "] " ++ text /\
        TranslationResponse.confidence resp = Some 1.0%float /\
        TranslationResponse.provider resp = lit "mock" /\
        TranslationResponse.is_mock resp = true) /\
  (forall (g g' : Globals) (w w' : World) (text : str)
          (target_lang : LanguageCode.t) (source_lang : option LanguageCode.t),
      let payload :=
        {| TranslationRequest.text := text;
           TranslationRequest.target_lang := target_lang;
           TranslationRequest.source_lang := source_lang;
           TranslationRequest.provider := Some ProviderName.mock |} in
      result w (translate_text g payload) = result w' (translate_text g' payload)) /\
  mock_translate (lit "hello") (lit "hi") = (lit "[HI] hello", 1.0%float) /\
  (forall (g : Globals) (w : World),
      result w (translate_text g (hello_request (Some ProviderName.mock))) =
      Ok {| TranslationResponse.original_text := lit "hello";
            TranslationResponse.translated_text := lit "[HI] hello";
            TranslationResponse.source_lang := lit "en";
            TranslationResponse.target_lang := lit "hi";
            TranslationResponse.provider := lit "mock";
            TranslationResponse.confidence := Some 1.0%float;
            TranslationResponse.is_mock := true |}).
Proof.
  assert (Hmock : forall text target_lang,
             mock_translate text (LanguageCode.to_str target_lang) =
             (lit "[" ++ upper (LanguageCode.to_str target_lang) ++ lit "] " ++ text,
              1.0%float)).
  { intros text target_lang. unfold mock_translate. now destruct target_lang. }
  split; [exact Hmock |]. split; [| split; [| split]].
  - intros g w text target_lang source_lang payload. subst payload.
    unfold translate_text; cbn [TranslationRequest.provider TranslationRequest.text
                                TranslationRequest.target_lang].
    rewrite Hmock. split; [reflexivity |].
    rewrite result_bindM; cbn. eexists; split; [reflexivity |]. now cbn.
  - intros g g' w w' text target_lang source_lang payload. subst payload.
    unfold translate_text; cbn [TranslationRequest.provider].
    now rewrite !result_bindM.
  - reflexivity.
  - intros g w. reflexivity.
Qed.

(** C3: when [setup_ocr] failed at start-up, every /translate-image call
    raises the 503 OCR error and makes no call at all before it: the upload is
    not read and no text extraction is started. *)
Theorem ocr_unavailable_fails_before_extraction :
  forall (w0 : World),
    snd (result w0 setup_ocr) = false ->
    forall (w : World) (file : UploadFile) (target_lang : LanguageCode.t)
           (source_lang : option LanguageCode.t) (provider : ProviderName.t),
      result w (translate_image (result w0 startup) file target_lang source_lang
                                provider) = Err ocr_unavailable_error /\
      trace w (translate_image (result w0 startup) file target_lang source_lang
                               provider) = [].
Proof.
  intros w0 Hfail w file target_lang source_lang provider.
  unfold translate_image. rewrite startup_OCR_AVAILABLE, Hfail. now cbn.
Qed.

Lemma ocr_unavailable_fails_before_extraction_witness :
  snd (result (world_of offline) setup_ocr) = false /\
  result (world_of (online hi_there))
         (translate_image (result (world_of offline) startup) png
                          LanguageCode.hi None ProviderName.mock)
  = Err ocr_unavailable_error /\
  trace (world_of (online hi_there))
        (translate_image (result (world_of offline) startup) png
                         LanguageCode.hi None ProviderName.mock) = [].
Proof.
  split; [reflexivity |].
  apply (ocr_unavailable_fails_before_extraction (world_of offline) eq_refl).
Defined.

(** C4, as stated, fails: the response carries the joined text after
    [strip()], so a first fragment " Hi" comes back as "Hi", not as the plain
    join " Hi". *)
Lemma extracted_text_differs_from_plain_join :
  blank (joined_text padded) = false /\
  exists resp,
    result (world_of (online padded))
           (translate_image (result (world_of (online padded)) startup) png
                            LanguageCode.hi None ProviderName.mock) = Ok resp /\
    ImageTranslationResponse.extracted_text resp = lit "Hi" /\
    ImageTranslationResponse.extracted_text resp <> joined_text padded.
Proof.
  split; [reflexivity |].
  eexists; split; [reflexivity |]. split; [reflexivity |].
  vm_compute. discriminate.
Qed.

(** C4 (amended): with OCR available and an image read, a joined text that is
    empty or whitespace-only gives the 400 no-text error; otherwise every
    successful response has as [extracted_text] the fragment texts joined with
    one space in detection order and then stripped of leading and trailing
    whitespace (the plain join when it has none), and as [ocr_confidence] the
    mean of the fragment confidences; with the mock provider the call
    succeeds.  Fragments ("Hi", 0.9), ("there", 0.7) give "Hi there" and 0.8. *)
Theorem image_text_assembly :
  (forall (g : Globals) (w : World) (file : UploadFile) (ctype : str)
          (reader : Reader) (image : bytes) (results : list detection)
          (target_lang : LanguageCode.t) (source_lang : option LanguageCode.t)
          (provider : ProviderName.t),
      OCR_AVAILABLE g = true ->
      EASYOCR_READER g = Some reader ->
      content_type file = Some ctype ->
      startswith ctype (lit "image/") = true ->
      w _ (file_read file) = Returned image ->
      w _ (readtext reader image 1) = Returned results ->
      let out := result w (translate_image g file target_lang source_lang provider) in
      (blank (joined_text results) = true -> out = Err no_text_error) /\
      (blank (joined_text results) = false ->
       (forall resp,
           out = Ok resp ->
           ImageTranslationResponse.extracted_text resp = strip (joined_text results) /\
           (trimmed (joined_text results) = true ->
            ImageTranslationResponse.extracted_text resp = joined_text results) /\
           ImageTranslationResponse.ocr_confidence resp =
             Some (mean_confidence results)) /\
       (provider = ProviderName.mock -> exists resp, out = Ok resp))) /\
  (exists resp,
      result (world_of (online hi_there))
             (translate_image (result (world_of (online hi_there)) startup) png
                              LanguageCode.hi None ProviderName.mock) = Ok resp /\
      ImageTranslationResponse.extracted_text resp = lit "Hi there" /\
      ImageTranslationResponse.ocr_confidence resp = Some 0.8%float).
Proof.
  split.
  - intros g w file ctype reader image results target_lang source_lang provider
           Hocr Hreader Hct Hsw Hread Hres out.
    subst out. split; [| intros Hblank; split].
    + now apply translate_image_blank with ctype reader image.
    + intros resp Hok.
      apply translate_image_ok_inv in Hok
        as (ct & rd & im & rs & _ & _ & _ & Hrd & Him & Hrs & _ & _ & Hex & Hconf & _).
      assert (rd = reader) by congruence; subst rd.
      assert (im = image) by congruence; subst im.
      assert (rs = results) by congruence; subst rs.
      split; [exact Hex |]. split; [| exact Hconf].
      intros Htrim. rewrite Hex. now apply strip_trimmed.
    + intros ->. now apply translate_image_mock with ctype reader image results.
  - eexists; split; [reflexivity |]. split; reflexivity.
Qed.

Lemma image_text_assembly_witness :
  OCR_AVAILABLE (result (world_of (online hi_there)) startup) = true /\
  EASYOCR_READER (result (world_of (online hi_there)) startup) =
    Some {| lang_list := [lit "en"; lit "hi"]; gpu := false |} /\
  content_type png = Some (lit "image/png") /\
  startswith (lit "image/png") (lit "image/") = true /\
  world_of (online hi_there) _ (file_read png) = Returned [] /\
  world_of (online hi_there) _
    (readtext {| lang_list := [lit "en"; lit "hi"]; gpu := false |} [] 1)
    = Returned hi_there /\
  blank (joined_text hi_there) = false /\
  forall resp,
    result (world_of (online hi_there))
           (translate_image (result (world_of (online hi_there)) startup) png
                            LanguageCode.hi None ProviderName.mock) = Ok resp ->
    ImageTranslationResponse.extracted_text resp = strip (joined_text hi_there) /\
    (trimmed (joined_text hi_there) = true ->
     ImageTranslationResponse.extracted_text resp = joined_text hi_there) /\
    ImageTranslationResponse.ocr_confidence resp = Some (mean_confidence hi_there).
Proof.
  repeat (split; [reflexivity |]).
  exact (proj1 (proj2 (proj1 image_text_assembly
                  (result (world_of (online hi_there)) startup)
                  (world_of (online hi_there)) png (lit "image/png")
                  {| lang_list := [lit "en"; lit "hi"]; gpu := false |} []
                  hi_there LanguageCode.hi None ProviderName.mock
                  eq_refl eq_refl eq_refl eq_refl eq_refl eq_refl) eq_refl)).
Defined.

(** C5, as stated, fails for an unrecognized provider: the body is rejected
    by validation and nothing is dispatched, while the same body with
    provider "deep" is translated by deep-translator. *)
Lemma unrecognized_provider_is_rejected :
  result (world_of (online []))
         (post_translate (result (world_of (online [])) startup)
                         (with_provider hello_body (Str (lit "fast"))))
  = RequestValidationError /\
  trace (world_of (online []))
        (post_translate (result (world_of (online [])) startup)
                        (with_provider hello_body (Str (lit "fast")))) = [] /\
  result (world_of (online []))
         (post_translate (result (world_of (online [])) startup)
                         (with_provider hello_body (Str (lit "deep"))))
  = Handled (Ok {| TranslationResponse.original_text := lit "hello";
                   TranslationResponse.translated_text := lit "<hi> hello";
                   TranslationResponse.source_lang := lit "en";
                   TranslationResponse.target_lang := lit "hi";
                   TranslationResponse.provider := lit "deep-translator";
                   TranslationResponse.confidence := Some 0.95%float;
                   TranslationResponse.is_mock := false |}) /\
  trace (world_of (online []))
        (post_translate (result (world_of (online [])) startup)
                        (with_provider hello_body (Str (lit "deep"))))
  = [Event (GoogleTranslator_translate (lit "auto") (lit "hi") (lit "hello"))].
Proof. repeat split. Qed.

(** C5 (amended): a /translate body whose provider is left out or null is
    handled exactly as the same body with provider "deep"; the handler then
    calls deep-translator first and a result names "deep-translator".  A
    provider string outside "deep", "google", "mock" is rejected by validation
    before any dispatch. *)
Theorem omitted_provider_dispatches_as_deep :
  (forall (g : Globals) (raw : RawRequest),
      raw_provider raw = Missing \/ raw_provider raw = Null ->
      post_translate g raw =
      post_translate g (with_provider raw (Str (lit "deep")))) /\
  (forall (g : Globals) (w : World) (payload : TranslationRequest.t),
      TranslationRequest.provider payload = None \/
      TranslationRequest.provider payload = Some ProviderName.deep ->
      (exists source target,
          hd_error (trace w (translate_text g payload)) =
          Some (Event (GoogleTranslator_translate source target
                         (TranslationRequest.text payload)))) /\
      (forall resp,
          result w (translate_text g payload) = Ok resp ->
          TranslationResponse.provider resp = lit "deep-translator")) /\
  (forall (g : Globals) (raw : RawRequest) (s : str),
      ProviderName.of_str s = None ->
      post_translate g (with_provider raw (Str s)) = Ret RequestValidationError).
Proof.
  split; [| split].
  - intros g raw Hp. unfold post_translate, validate, with_provider.
    cbn [raw_text raw_target_lang raw_source_lang raw_provider].
    replace (ProviderName.of_str (lit "deep")) with (Some ProviderName.deep)
      by reflexivity.
    destruct (raw_text raw) as [| | text]; try reflexivity.
    destruct (negb _); [reflexivity |].
    destruct (raw_target_lang raw) as [| | t]; try reflexivity.
    destruct (LanguageCode.of_str t) as [target_lang |]; [| reflexivity].
    destruct (raw_source_lang raw) as [| | src];
      [| | destruct (LanguageCode.of_str src)];
      destruct Hp as [-> | ->]; reflexivity.
  - intros g w [text target sl provider] Hp; cbn in Hp.
    assert (Hdeep : translate_text g
                      {| TranslationRequest.text := text;
                         TranslationRequest.target_lang := target;
                         TranslationRequest.source_lang := sl;
                         TranslationRequest.provider := provider |} =
                    translate_text g
                      {| TranslationRequest.text := text;
                         TranslationRequest.target_lang := target;
                         TranslationRequest.source_lang := sl;
                         TranslationRequest.provider := None |})
      by (destruct Hp as [-> | ->]; reflexivity).
    rewrite Hdeep. clear Hdeep Hp. unfold translate_text. split.
    + unfold translate_with_deep_translator, try_call, bindM. cbn. eauto.
    + intros resp. run_handler; try discriminate.
      all: intros H; injection H as H; now subst resp.
  - intros g raw s Hs. unfold post_translate, validate, with_provider.
    cbn [raw_text raw_target_lang raw_source_lang raw_provider].
    rewrite Hs.
    destruct (raw_text raw) as [| | text]; try reflexivity.
    destruct (negb _); [reflexivity |].
    destruct (raw_target_lang raw) as [| | t]; try reflexivity.
    destruct (LanguageCode.of_str t); [| reflexivity].
    destruct (raw_source_lang raw) as [| | src];
      [| | destruct (LanguageCode.of_str src)]; reflexivity.
Qed.

Lemma omitted_provider_dispatches_as_deep_witness :
  (raw_provider hello_body = Missing \/ raw_provider hello_body = Null) /\
  post_translate (result (world_of (online [])) startup) hello_body =
  post_translate (result (world_of (online [])) startup)
                 (with_provider hello_body (Str (lit "deep"))) /\
  ProviderName.of_str (lit "fast") = None /\
  post_translate (result (world_of (online [])) startup)
                 (with_provider hello_body (Str (lit "fast")))
  = Ret RequestValidationError.
Proof.
  split; [left; reflexivity |]. split.
  - apply (proj1 omitted_provider_dispatches_as_deep). left; reflexivity.
  - split; [reflexivity |].
    apply (proj2 (proj2 omitted_provider_dispatches_as_deep)). reflexivity.
Defined.

(** ** googletrans missing *)

Section GoogletransMissing.
Variable g : Globals.
Hypothesis Hmissing : GOOGLETRANS_AVAILABLE g = false.

Lemma googletrans_raises_at_once (text source_lang target_lang : str) :
  translate_with_googletrans g text source_lang target_lang =
  raise googletrans_unavailable_error.
Proof. unfold translate_with_googletrans. now rewrite Hmissing. Qed.

Lemma translate_text_google_missing (w : World) (text : str)
      (target_lang : LanguageCode.t) (source_lang : option LanguageCode.t) :
  let payload :=
    {| TranslationRequest.text := text;
       TranslationRequest.target_lang := target_lang;
       TranslationRequest.source_lang := source_lang;
       TranslationRequest.provider := Some ProviderName.google |} in
  result w (translate_text g payload) = Err googletrans_unavailable_error /\
  trace w (translate_text g payload) = [].
Proof.
  unfold translate_text;
    cbn [TranslationRequest.provider TranslationRequest.text
         TranslationRequest.target_lang TranslationRequest.source_lang].
  now rewrite googletrans_raises_at_once.
Qed.

Lemma translate_image_google_missing (w : World) (file : UploadFile)
      (target_lang : LanguageCode.t) (source_lang : option LanguageCode.t) :
  (forall resp,
      result w (translate_image g file target_lang source_lang ProviderName.google)
      <> Ok resp) /\
  existsb is_translation_call
    (trace w (translate_image g file target_lang source_lang ProviderName.google))
  = false.
Proof.
  unfold translate_image.
  destruct (OCR_AVAILABLE g); cbn; [| split; [discriminate | reflexivity]].
  destruct (content_type file) as [ctype |]; cbn;
    [| split; [discriminate | reflexivity]].
  destruct (startswith ctype (lit "image/")); cbn;
    [| split; [discriminate | reflexivity]].
  unfold try_except, bindM, invoke; cbn.
  destruct (w _ (file_read file)) as [image | msg]; cbn;
    [| split; [discriminate | reflexivity]].
  destruct (EASYOCR_READER g) as [reader |]; cbn;
    [| split; [discriminate | reflexivity]].
  destruct (w _ (readtext reader image 1)) as [results | msg]; cbn;
    [| split; [discriminate | reflexivity]].
  rewrite collect_parts_map.
  destruct (truthy (strip _)); cbn; [| split; [discriminate | reflexivity]].
  rewrite googletrans_raises_at_once; cbn.
  split; [discriminate | reflexivity].
Qed.
End GoogletransMissing.

(** C6: when googletrans cannot be imported at start-up, the google
    provider raises the 503 provider-unavailable error without any call: so
    does /translate with provider "google"; /translate-image with provider
    "google" never succeeds, never reaches a translation engine and raises
    that error once OCR has found text; /status reports googletrans as
    unavailable. *)
Theorem googletrans_not_importable :
  forall (w0 : World) (msg : str),
    w0 _ import_googletrans = Raised msg ->
    (forall (w : World) (text source_lang target_lang : str),
        result w (translate_with_googletrans (result w0 startup) text source_lang
                                             target_lang)
        = Err googletrans_unavailable_error /\
        trace w (translate_with_googletrans (result w0 startup) text source_lang
                                            target_lang) = []) /\
    (forall (w : World) (text : str) (target_lang : LanguageCode.t)
            (source_lang : option LanguageCode.t),
        let payload :=
          {| TranslationRequest.text := text;
             TranslationRequest.target_lang := target_lang;
             TranslationRequest.source_lang := source_lang;
             TranslationRequest.provider := Some ProviderName.google |} in
        result w (translate_text (result w0 startup) payload)
        = Err googletrans_unavailable_error /\
        trace w (translate_text (result w0 startup) payload) = []) /\
    (forall (w : World) (file : UploadFile) (target_lang : LanguageCode.t)
            (source_lang : option LanguageCode.t),
        (forall resp,
            result w (translate_image (result w0 startup) file target_lang
                                      source_lang ProviderName.google) <> Ok resp) /\
        existsb is_translation_call
          (trace w (translate_image (result w0 startup) file target_lang
                                    source_lang ProviderName.google)) = false) /\
    (forall (w : World) (file : UploadFile) (ctype : str) (reader : Reader)
            (image : bytes) (results : list detection)
            (target_lang : LanguageCode.t) (source_lang : option LanguageCode.t),
        OCR_AVAILABLE (result w0 startup) = true ->
        EASYOCR_READER (result w0 startup) = Some reader ->
        content_type file = Some ctype ->
        startswith ctype (lit "image/") = true ->
        w _ (file_read file) = Returned image ->
        w _ (readtext reader image 1) = Returned results ->
        blank (joined_text results) = false ->
        result w (translate_image (result w0 startup) file target_lang
                                  source_lang ProviderName.google)
        = Err googletrans_unavailable_error) /\
    googletrans (providers (text_translation
                              (get_translation_status (result w0 startup)))) = false.
Proof.
  intros w0 msg Himport.
  assert (Hmissing : GOOGLETRANS_AVAILABLE (result w0 startup) = false)
    by (now rewrite startup_GOOGLETRANS_AVAILABLE, Himport).
  repeat split.
  - now rewrite googletrans_raises_at_once.
  - now rewrite googletrans_raises_at_once.
  - now apply translate_text_google_missing.
  - now apply translate_text_google_missing.
  - now apply translate_image_google_missing.
  - now apply translate_image_google_missing.
  - intros. now apply translate_image_google_unavailable
      with ctype reader image results.
  - exact Hmissing.
Qed.

Lemma googletrans_not_importable_witness :
  world_of offline _ import_googletrans
  = Raised (lit "No module named 'googletrans'") /\
  result (world_of (online []))
         (translate_text (result (world_of offline) startup)
                         (hello_request (Some ProviderName.google)))
  = Err googletrans_unavailable_error /\
  googletrans (providers (text_translation
                 (get_translation_status (result (world_of offline) startup))))
  = false.
Proof.
  split; [reflexivity |].
  pose proof (googletrans_not_importable (world_of offline) _ eq_refl)
    as (_ & Htext & _ & _ & Hstatus).
  split; [| exact Hstatus].
  exact (proj1 (Htext (world_of (online [])) (lit "hello") LanguageCode.hi None)).
Defined.

(** C7: without googletrans every /detect-language call succeeds with
    code "en", the registry name "English" and confidence 0.5, and asks no
    backend. *)
Theorem detect_language_falls_back_to_english :
  forall (g : Globals) (w : World) (text : str),
    GOOGLETRANS_AVAILABLE g = false ->
    result w (detect_language g text) =
    Ok {| LanguageDetectionResponse.detected_lang := lit "en";
          LanguageDetectionResponse.language_name := lit "English";
          LanguageDetectionResponse.confidence := 0.5%float |} /\
    trace w (detect_language g text) = [].
Proof.
  intros g w text Hmissing. unfold detect_language. rewrite Hmissing.
  split; reflexivity.
Qed.

Lemma detect_language_falls_back_to_english_witness :
  GOOGLETRANS_AVAILABLE (result (world_of offline) startup) = false /\
  result (world_of offline)
         (detect_language (result (world_of offline) startup) (lit "namaste")) =
  Ok {| LanguageDetectionResponse.detected_lang := lit "en";
        LanguageDetectionResponse.language_name := lit "English";
        LanguageDetectionResponse.confidence := 0.5%float |} /\
  trace (world_of offline)
        (detect_language (result (world_of offline) startup) (lit "namaste")) = [].
Proof.
  split; [reflexivity |].
  apply (detect_language_falls_back_to_english
           (result (world_of offline) startup) (world_of offline) (lit "namaste")).
  reflexivity.
Defined.

(** C8: in every result of /translate, [is_mock] is true exactly when the
    mock provider was dispatched, and a result with [is_mock] has provider
    "mock" and confidence 1.0. *)
Theorem is_mock_exactly_for_mock_provider :
  forall (g : Globals) (w : World) (payload : TranslationRequest.t)
         (resp : TranslationResponse.t),
    result w (translate_text g payload) = Ok resp ->
    (TranslationResponse.is_mock resp = true <->
     TranslationRequest.provider payload = Some ProviderName.mock) /\
    (TranslationResponse.is_mock resp = true ->
     TranslationResponse.provider resp = lit "mock" /\
     TranslationResponse.confidence resp = Some 1.0%float).
Proof.
  intros g w payload resp. unfold translate_text.
  destruct payload as [text target sl [[| |] |]]; run_handler.
  all: try discriminate.
  all: intros H; injection H as H; subst resp; cbn.
  all: repeat split; try discriminate; auto.
Qed.

Lemma is_mock_exactly_for_mock_provider_witness :
  exists resp,
    result (world_of offline)
           (translate_text (result (world_of offline) startup)
                           (hello_request (Some ProviderName.mock))) = Ok resp /\
    (TranslationResponse.is_mock resp = true <->
     TranslationRequest.provider (hello_request (Some ProviderName.mock))
     = Some ProviderName.mock) /\
    (TranslationResponse.is_mock resp = true ->
     TranslationResponse.provider resp = lit "mock" /\
     TranslationResponse.confidence resp = Some 1.0%float).
Proof.
  eexists. split; [reflexivity |].
  apply (is_mock_exactly_for_mock_provider
           (result (world_of offline) startup) (world_of offline)
           (hello_request (Some ProviderName.mock))).
  reflexivity.
Defined.

(** C9: with OCR unavailable /translate-image raises the 503 OCR error
    whatever the content type of the upload, an upload that is not an image
    included; a 400 error therefore only comes out when OCR is available, where
    an upload that is not an image gets the 400 invalid-input error. *)
Theorem ocr_check_comes_before_content_type_check :
  (forall (g : Globals) (w : World) (file : UploadFile)
          (target_lang : LanguageCode.t) (source_lang : option LanguageCode.t)
          (provider : ProviderName.t),
      OCR_AVAILABLE g = false ->
      result w (translate_image g file target_lang source_lang provider)
      = Err ocr_unavailable_error) /\
  (forall (g : Globals) (w : World) (file : UploadFile)
          (target_lang : LanguageCode.t) (source_lang : option LanguageCode.t)
          (provider : ProviderName.t) (detail : str),
      result w (translate_image g file target_lang source_lang provider)
      = Err (HTTPException 400 detail) ->
      OCR_AVAILABLE g = true) /\
  (forall (g : Globals) (w : World) (file : UploadFile) (ctype : str)
          (target_lang : LanguageCode.t) (source_lang : option LanguageCode.t)
          (provider : ProviderName.t),
      OCR_AVAILABLE g = true ->
      content_type file = Some ctype ->
      startswith ctype (lit "image/") = false ->
      result w (translate_image g file target_lang source_lang provider)
      = Err not_an_image_error).
Proof.
  assert (Hfirst : forall g w file target_lang source_lang provider,
             OCR_AVAILABLE g = false ->
             result w (translate_image g file target_lang source_lang provider)
             = Err ocr_unavailable_error).
  { intros g w file target_lang source_lang provider Hocr.
    unfold translate_image. now rewrite Hocr. }
  split; [exact Hfirst |]. split.
  - intros g w file target_lang source_lang provider detail Hbad.
    destruct (OCR_AVAILABLE g) eqn:Hocr; [reflexivity |].
    rewrite (Hfirst g w file target_lang source_lang provider Hocr) in Hbad.
    discriminate Hbad.
  - intros g w file ctype target_lang source_lang provider Hocr Hct Hsw.
    unfold translate_image. now rewrite Hocr, Hct, Hsw.
Qed.

Lemma ocr_check_comes_before_content_type_check_witness :
  OCR_AVAILABLE (result (world_of offline) startup) = false /\
  startswith (lit "application/pdf") (lit "image/") = false /\
  result (world_of offline)
         (translate_image (result (world_of offline) startup) pdf
                          LanguageCode.hi None ProviderName.deep)
  = Err ocr_unavailable_error /\
  result (world_of (online hi_there))
         (translate_image (result (world_of (online hi_there)) startup) pdf
                          LanguageCode.hi None ProviderName.deep)
  = Err not_an_image_error /\
  OCR_AVAILABLE (result (world_of (online hi_there)) startup) = true.
Proof.
  split; [reflexivity |]. split; [reflexivity |].
  pose proof ocr_check_comes_before_content_type_check as (H503 & H400 & Hnot).
  split; [apply H503; reflexivity |].
  assert (E : result (world_of (online hi_there))
                (translate_image (result (world_of (online hi_there)) startup) pdf
                                 LanguageCode.hi None ProviderName.deep)
              = Err not_an_image_error).
  { apply Hnot with (ctype := lit "application/pdf"); reflexivity. }
  split; [exact E |].
  exact (H400 _ _ _ _ _ _ _ E).
Defined.

(** C10: every successful /translate-image response carries an
    [ocr_confidence]: an empty list of fragments never reaches the response,
    because its joined text is empty and the call raises the 400 no-text error
    first. *)
Theorem successful_image_response_has_ocr_confidence :
  (forall (g : Globals) (w : World) (file : UploadFile)
          (target_lang : LanguageCode.t) (source_lang : option LanguageCode.t)
          (provider : ProviderName.t) (resp : ImageTranslationResponse.t),
      result w (translate_image g file target_lang source_lang provider) = Ok resp ->
      ImageTranslationResponse.ocr_confidence resp <> None) /\
  (forall (g : Globals) (w : World) (file : UploadFile) (ctype : str)
          (reader : Reader) (image : bytes)
          (target_lang : LanguageCode.t) (source_lang : option LanguageCode.t)
          (provider : ProviderName.t),
      OCR_AVAILABLE g = true ->
      EASYOCR_READER g = Some reader ->
      content_type file = Some ctype ->
      startswith ctype (lit "image/") = true ->
      w _ (file_read file) = Returned image ->
      w _ (readtext reader image 1) = Returned [] ->
      result w (translate_image g file target_lang source_lang provider)
      = Err no_text_error).
Proof.
  split.
  - intros g w file target_lang source_lang provider resp Hok.
    apply translate_image_ok_inv in Hok
      as (ct & rd & im & rs & _ & _ & _ & _ & _ & _ & _ & _ & _ & Hconf & _).
    now rewrite Hconf.
  - intros g w file ctype reader image target_lang source_lang provider
           Hocr Hreader Hct Hsw Hread Hres.
    now apply translate_image_blank with ctype reader image (@nil detection).
Qed.

Lemma successful_image_response_has_ocr_confidence_witness :
  (exists resp,
      result (world_of (online hi_there))
             (translate_image (result (world_of (online hi_there)) startup) png
                              LanguageCode.ta None ProviderName.deep) = Ok resp /\
      ImageTranslationResponse.ocr_confidence resp <> None) /\
  result (world_of (online []))
         (translate_image (result (world_of (online [])) startup) png
                          LanguageCode.ta None ProviderName.deep)
  = Err no_text_error.
Proof.
  pose proof successful_image_response_has_ocr_confidence as (Hsome & Hnone).
  split.
  - eexists. split; [reflexivity |].
    apply (Hsome (result (world_of (online hi_there)) startup)
                 (world_of (online hi_there)) png LanguageCode.ta None
                 ProviderName.deep).
    reflexivity.
  - apply Hnone with (ctype := lit "image/png")
                     (reader := {| lang_list := [lit "en"; lit "hi"]; gpu := false |})
                     (image := []); reflexivity.
Defined.

(** * Further properties of the module *)

(** ** Start-up *)

(** X1: after start-up the OCR flag and the reader agree: OCR is flagged
    available exactly when a reader is stored, and that is exactly when both
    the import of easyocr and the construction of the reader returned. *)
Theorem startup_ocr_flag_matches_reader :
  forall (w : World),
    (OCR_AVAILABLE (result w startup) = true <->
     EASYOCR_READER (result w startup) <> None) /\
    (OCR_AVAILABLE (result w startup) = true <->
     exists reader,
       w _ import_easyocr = Returned tt /\
       w _ (easyocr_Reader [lit "en"; lit "hi"] false) = Returned reader /\
       EASYOCR_READER (result w startup) = Some reader).
Proof.
  intros w. rewrite startup_OCR_AVAILABLE, startup_EASYOCR_READER.
  unfold setup_ocr; cbn.
  destruct (w _ import_easyocr) as [[] | msg]; cbn.
  - destruct (w _ (easyocr_Reader _ _)) as [reader | msg]; cbn.
    + split; split; try discriminate; eauto.
    + split; split; try discriminate; try congruence.
      intros (reader & _ & H & _); discriminate.
  - split; split; try discriminate; try congruence.
    intros (reader & H & _); discriminate.
Qed.



(** ** POST /translate *)



Lemma resolved_source_some (c : LanguageCode.t) :
  resolved_source (Some c) = LanguageCode.to_str c.
Proof. unfold resolved_source, or_else; cbn. now rewrite to_str_truthy. Qed.

Lemma reported_source_spec (source_lang : option LanguageCode.t) :
  (if PyStr.eqb (resolved_source source_lang) (lit "auto")
   then lit "en" else resolved_source source_lang)
  = reported_source source_lang.
Proof.
  destruct source_lang as [c |]; [| reflexivity].
  now rewrite resolved_source_some, to_str_not_auto.
Qed.



(** X4: with provider "google" and googletrans importable, /translate
    makes exactly one call to googletrans: with no source hint when no
    source language is given and the given code otherwise.  The response
    carries the confidence of the result when it has one and 0.9 when it has
    none; when the call raises, the error is logged once and the request
    fails with 500 "Google Translate failed: <text of the error>". *)
Theorem googletrans_dispatch :
  forall (g : Globals) (w : World) (text : str) (target_lang : LanguageCode.t)
         (source_lang : option LanguageCode.t),
    GOOGLETRANS_AVAILABLE g = true ->
    let payload :=
      {| TranslationRequest.text := text;
         TranslationRequest.target_lang := target_lang;
         TranslationRequest.source_lang := source_lang;
         TranslationRequest.provider := Some ProviderName.google |} in
    let request :=
      GoogleTransAPI_translate text (option_map LanguageCode.to_str source_lang)
                               (LanguageCode.to_str target_lang) in
    match w _ request with
    | Returned translated =>
      result w (translate_text g payload) =
      Ok {| TranslationResponse.original_text := text;
            TranslationResponse.translated_text := t_text translated;
            TranslationResponse.source_lang := reported_source source_lang;
            TranslationResponse.target_lang := LanguageCode.to_str target_lang;
            TranslationResponse.provider := lit "google-translate";
            TranslationResponse.confidence :=
              Some match t_confidence translated with
                   | Some c => c
                   | None => 0.9%float
                   end;
            TranslationResponse.is_mock := false |} /\
      trace w (translate_text g payload) = [Event request]
    | Raised msg =>
      result w (translate_text g payload) =
      Err (HTTPException 500 (lit "Google Translate failed: " ++ msg)) /\
      trace w (translate_text g payload) =
      [Event request; Event (logger_error (lit "Google Translate error: " ++ msg))]
    end.
Proof.
  intros g w text target_lang source_lang Hg payload request.
  subst payload request.
  assert (Hsrc : (if negb (PyStr.eqb (resolved_source source_lang) (lit "auto"))
                  then Some (resolved_source source_lang) else None)
                 = option_map LanguageCode.to_str source_lang).
  { destruct source_lang as [c |]; [| reflexivity].
    now rewrite resolved_source_some, to_str_not_auto. }
  unfold translate_text, translate_with_googletrans, try_call, bindM, perform;
    cbn [TranslationRequest.provider TranslationRequest.text
         TranslationRequest.target_lang TranslationRequest.source_lang].
  fold (resolved_source source_lang).
  rewrite Hg, Hsrc. cbn.
  destruct (w _ _) as [translated | msg]; cbn.
  - now rewrite reported_source_spec.
  - split; reflexivity.
Qed.

Lemma googletrans_dispatch_witness :
  GOOGLETRANS_AVAILABLE (result (world_of (online [])) startup) = true /\
  result (world_of (online []))
         (translate_text (result (world_of (online [])) startup)
                         (hello_request (Some ProviderName.google))) =
  Ok {| TranslationResponse.original_text := lit "hello";
        TranslationResponse.translated_text := lit "<hi> hello";
        TranslationResponse.source_lang := lit "en";
        TranslationResponse.target_lang := lit "hi";
        TranslationResponse.provider := lit "google-translate";
        TranslationResponse.confidence := Some 0.9%float;
        TranslationResponse.is_mock := false |}.
Proof.
  split; [reflexivity |].
  exact (proj1 (googletrans_dispatch
                  (result (world_of (online [])) startup) (world_of (online []))
                  (lit "hello") LanguageCode.hi None eq_refl)).
Defined.



(** X6: every result of /translate echoes the request: the text and the
    target code as sent, and as [source_lang] the code that was sent or "en"
    when none was, so never the word "auto"; the provider field names the
    provider that was dispatched. *)
Theorem translate_text_response_echoes_request :
  forall (g : Globals) (w : World) (payload : TranslationRequest.t)
         (resp : TranslationResponse.t),
    result w (translate_text g payload) = Ok resp ->
    TranslationResponse.original_text resp = TranslationRequest.text payload /\
    TranslationResponse.target_lang resp =
      LanguageCode.to_str (TranslationRequest.target_lang payload) /\
    TranslationResponse.source_lang resp =
      reported_source (TranslationRequest.source_lang payload) /\
    TranslationResponse.source_lang resp <> lit "auto" /\
    TranslationResponse.provider resp =
      match TranslationRequest.provider payload with
      | Some ProviderName.mock => lit "mock"
      | Some ProviderName.google => lit "google-translate"
      | _ => lit "deep-translator"
      end /\
    TranslationResponse.confidence resp <> None.
Proof.
  intros g w payload resp. unfold translate_text.
  destruct payload as [text target sl provider].
  cbn [TranslationRequest.provider TranslationRequest.text
       TranslationRequest.target_lang TranslationRequest.source_lang].
  fold (resolved_source sl). rewrite reported_source_spec.
  assert (Hauto : reported_source sl <> lit "auto")
    by (destruct sl as [[] |]; discriminate).
  destruct provider as [[| |] |]; run_handler; try discriminate.
  all: intros H; injection H as H; subst resp; cbn.
  all: repeat split; try assumption; discriminate.
Qed.

Lemma translate_text_response_echoes_request_witness :
  exists resp,
    result (world_of (online []))
           (translate_text (result (world_of (online [])) startup)
                           (hello_request None)) = Ok resp /\
    TranslationResponse.source_lang resp <> lit "auto" /\
    TranslationResponse.provider resp = lit "deep-translator".
Proof.
  eexists. split; [reflexivity |].
  pose proof (translate_text_response_echoes_request
                (result (world_of (online [])) startup) (world_of (online []))
                (hello_request None) _ eq_refl) as (_ & _ & _ & Hauto & Hprov & _).
  split; [exact Hauto | exact Hprov].
Defined.

(** X7: /simple is /translate: for every request the alias runs the same
    program, because a null provider already takes the deep-translator
    branch. *)
Theorem simple_is_translate :
  forall (g : Globals) (payload : TranslationRequest.t),
    translate_text_simple g payload = translate_text g payload.
Proof.
  intros g [text target sl [p |]]; reflexivity.
Qed.

(** X8: /translate reaches a translation engine at most once per request,
    and not at all with the mock provider or when it answers 503. *)
Theorem translate_text_calls_an_engine_at_most_once :
  forall (g : Globals) (w : World) (payload : TranslationRequest.t),
    (List.length (filter is_translation_call (trace w (translate_text g payload)))
     <= 1)%nat /\
    (TranslationRequest.provider payload = Some ProviderName.mock ->
     trace w (translate_text g payload) = []) /\
    (forall detail,
        result w (translate_text g payload) = Err (HTTPException 503 detail) ->
        trace w (translate_text g payload) = []).
Proof.
  intros g w [text target sl provider].
  unfold translate_text, translate_with_deep_translator,
    translate_with_googletrans, try_call, bindM, perform.
  destruct provider as [[| |] |]; cbn.
  - destruct (w _ _); cbn; repeat split; auto; discriminate.
  - destruct (GOOGLETRANS_AVAILABLE g); cbn.
    + destruct (w _ _); cbn; repeat split; auto; discriminate.
    + repeat split; auto.
  - repeat split; auto.
  - destruct (w _ _); cbn; repeat split; auto; discriminate.
Qed.

Lemma translate_text_calls_an_engine_at_most_once_witness :
  TranslationRequest.provider (hello_request (Some ProviderName.mock))
  = Some ProviderName.mock /\
  trace (world_of (online []))
        (translate_text (result (world_of (online [])) startup)
                        (hello_request (Some ProviderName.mock))) = [].
Proof.
  split; [reflexivity |].
  apply (proj1 (proj2 (translate_text_calls_an_engine_at_most_once
                         (result (world_of (online [])) startup)
                         (world_of (online []))
                         (hello_request (Some ProviderName.mock))))).
  reflexivity.
Defined.

(** ** POST /translate-image *)

(** X9: for an upload that has a content type, /translate-image never lets
    a raw exception out: whatever the upload, the OCR engine and the
    translation backends do, a failed call is an HTTP error with status 400,
    500 or 503. *)
Theorem translate_image_errors_are_http :
  forall (g : Globals) (w : World) (file : UploadFile) (ctype : str)
         (target_lang : LanguageCode.t) (source_lang : option LanguageCode.t)
         (provider : ProviderName.t) (e : exn),
    content_type file = Some ctype ->
    result w (translate_image g file target_lang source_lang provider) = Err e ->
    exists status detail,
      e = HTTPException status detail /\
      (status = 400 \/ status = 500 \/ status = 503)%Z.
Proof.
  intros g w file ctype target_lang source_lang provider e Hct.
  unfold translate_image. rewrite Hct.
  destruct (OCR_AVAILABLE g); cbn;
    [| intros H; injection H as <-; eauto 6].
  destruct (startswith ctype (lit "image/")); cbn;
    [| intros H; injection H as <-; eauto 6].
  rewrite result_try_except, result_bindM; cbn.
  destruct (w _ (file_read file)) as [image | msg]; cbn;
    [| intros H; injection H as <-; eauto 6].
  rewrite result_bindM.
  destruct (EASYOCR_READER g) as [reader |]; cbn;
    [| intros H; injection H as <-; eauto 6].
  destruct (w _ (readtext reader image 1)) as [results | msg]; cbn;
    [| intros H; injection H as <-; eauto 6].
  destruct (collect_parts results) as [parts confs].
  destruct (truthy (strip _)); cbn;
    [| intros H; injection H as <-; eauto 6].
  destruct provider; run_handler; try discriminate.
  all: intros H; injection H as <-; unfold googletrans_unavailable_error; eauto 6.
Qed.

Lemma translate_image_errors_are_http_witness :
  content_type pdf = Some (lit "application/pdf") /\
  exists e,
    result (world_of (online hi_there))
           (translate_image (result (world_of (online hi_there)) startup) pdf
                            LanguageCode.hi None ProviderName.deep) = Err e /\
    exists status detail,
      e = HTTPException status detail /\
      (status = 400 \/ status = 500 \/ status = 503)%Z.
Proof.
  split; [reflexivity |].
  eexists. split; [reflexivity |].
  apply (translate_image_errors_are_http
           (result (world_of (online hi_there)) startup)
           (world_of (online hi_there)) pdf (lit "application/pdf")
           LanguageCode.hi None ProviderName.deep); reflexivity.
Defined.

(** X10: when the upload cannot be read, or the OCR engine raises, the
    call fails with 500 "Failed to process image: <text of the error>" after
    one log entry, and no translation engine is reached. *)
Theorem image_processing_failure_is_500 :
  forall (g : Globals) (w : World) (file : UploadFile) (ctype : str)
         (reader : Reader) (target_lang : LanguageCode.t)
         (source_lang : option LanguageCode.t) (provider : ProviderName.t),
    OCR_AVAILABLE g = true ->
    EASYOCR_READER g = Some reader ->
    content_type file = Some ctype ->
    startswith ctype (lit "image/") = true ->
    let call := translate_image g file target_lang source_lang provider in
    (forall msg,
        w _ (file_read file) = Raised msg ->
        result w call =
          Err (HTTPException 500 (lit "Failed to process image: " ++ msg)) /\
        trace w call =
          [Event (file_read file);
           Event (logger_error (lit "Image translation error: " ++ msg))]) /\
    (forall image msg,
        w _ (file_read file) = Returned image ->
        w _ (readtext reader image 1) = Raised msg ->
        result w call =
          Err (HTTPException 500 (lit "Failed to process image: " ++ msg)) /\
        trace w call =
          [Event (file_read file); Event (readtext reader image 1);
           Event (logger_error (lit "Image translation error: " ++ msg))]).
Proof.
  intros g w file ctype reader target_lang source_lang provider
         Hocr Hreader Hct Hsw call.
  subst call. unfold translate_image.
  rewrite Hocr, Hct; cbn. rewrite Hsw; cbn.
  unfold try_except, bindM, invoke, perform; cbn.
  split.
  - intros msg Hread. rewrite Hread; cbn. split; reflexivity.
  - intros image msg Hread Hres. rewrite Hread; cbn.
    rewrite Hreader; cbn. rewrite Hres; cbn. split; reflexivity.
Qed.

Lemma image_processing_failure_is_500_witness :
  OCR_AVAILABLE (result (world_of (online [])) startup) = true /\
  content_type png = Some (lit "image/png") /\
  world_of offline _ (file_read png) = Raised (lit "unavailable") /\
  result (world_of offline)
         (translate_image (result (world_of (online [])) startup) png
                          LanguageCode.hi None ProviderName.deep) =
  Err (HTTPException 500 (lit "Failed to process image: unavailable")).
Proof.
  repeat (split; [reflexivity |]).
  exact (proj1 (proj1 (image_processing_failure_is_500
                         (result (world_of (online [])) startup) (world_of offline)
                         png (lit "image/png")
                         {| lang_list := [lit "en"; lit "hi"]; gpu := false |}
                         LanguageCode.hi None ProviderName.deep
                         eq_refl eq_refl eq_refl eq_refl)
                      (lit "unavailable") eq_refl)).
Defined.

(** X11: an image in which OCR finds no text, or only whitespace, costs
    one read and one OCR pass and nothing else: no translation engine is
    reached and nothing is logged, with any provider. *)
Theorem blank_image_is_never_translated :
  forall (g : Globals) (w : World) (file : UploadFile) (ctype : str)
         (reader : Reader) (image : bytes) (results : list detection)
         (target_lang : LanguageCode.t) (source_lang : option LanguageCode.t)
         (provider : ProviderName.t),
    OCR_AVAILABLE g = true ->
    EASYOCR_READER g = Some reader ->
    content_type file = Some ctype ->
    startswith ctype (lit "image/") = true ->
    w _ (file_read file) = Returned image ->
    w _ (readtext reader image 1) = Returned results ->
    blank (joined_text results) = true ->
    trace w (translate_image g file target_lang source_lang provider) =
    [Event (file_read file); Event (readtext reader image 1)].
Proof.
  intros g w file ctype reader image results target_lang source_lang provider
         Hocr Hreader Hct Hsw Hread Hres Hblank.
  unfold translate_image.
  rewrite Hocr, Hct; cbn. rewrite Hsw; cbn.
  unfold try_except, bindM, invoke, perform; cbn.
  rewrite Hread; cbn. rewrite Hreader; cbn. rewrite Hres; cbn.
  rewrite collect_parts_map, truthy_strip. unfold joined_text in Hblank.
  rewrite Hblank. reflexivity.
Qed.

Lemma blank_image_is_never_translated_witness :
  OCR_AVAILABLE (result (world_of (online [])) startup) = true /\
  blank (joined_text []) = true /\
  trace (world_of (online []))
        (translate_image (result (world_of (online [])) startup) png
                         LanguageCode.hi None ProviderName.deep) =
  [Event (file_read png);
   Event (readtext {| lang_list := [lit "en"; lit "hi"]; gpu := false |} [] 1)].
Proof.
  repeat (split; [reflexivity |]).
  apply (blank_image_is_never_translated
           (result (world_of (online [])) startup) (world_of (online []))
           png (lit "image/png")
           {| lang_list := [lit "en"; lit "hi"]; gpu := false |} [] []
           LanguageCode.hi None ProviderName.deep); reflexivity.
Defined.



(** X13: the content type is tested before any input or output: with OCR
    available, an upload that is not an image gets the 400 error and an upload
    without a content type ends in a raw exception (the test is outside the
    [try]); in both cases the upload is never read and nothing is logged. *)
Theorem content_type_gate_precedes_io :
  forall (g : Globals) (w : World) (file : UploadFile)
         (target_lang : LanguageCode.t) (source_lang : option LanguageCode.t)
         (provider : ProviderName.t),
    OCR_AVAILABLE g = true ->
    let call := translate_image g file target_lang source_lang provider in
    (forall ctype,
        content_type file = Some ctype ->
        startswith ctype (lit "image/") = false ->
        result w call = Err not_an_image_error /\ trace w call = []) /\
    (content_type file = None ->
     (exists msg, result w call = Err (Exception msg)) /\ trace w call = []).
Proof.
  intros g w file target_lang source_lang provider Hocr call. subst call.
  unfold translate_image. rewrite Hocr; cbn. split.
  - intros ctype Hct Hsw. rewrite Hct, Hsw. split; reflexivity.
  - intros Hct. rewrite Hct. split; [eexists; reflexivity | reflexivity].
Qed.

Lemma content_type_gate_precedes_io_witness :
  OCR_AVAILABLE (result (world_of (online hi_there)) startup) = true /\
  result (world_of (online hi_there))
         (translate_image (result (world_of (online hi_there)) startup) pdf
                          LanguageCode.hi None ProviderName.mock)
  = Err not_an_image_error /\
  trace (world_of (online hi_there))
        (translate_image (result (world_of (online hi_there)) startup) pdf
                         LanguageCode.hi None ProviderName.mock) = [].
Proof.
  split; [reflexivity |].
  apply (proj1 (content_type_gate_precedes_io
                  (result (world_of (online hi_there)) startup)
                  (world_of (online hi_there)) pdf LanguageCode.hi None
                  ProviderName.mock eq_refl) (lit "application/pdf"));
    reflexivity.
Defined.

(** ** The language registry *)

Lemma of_str_to_str (c : LanguageCode.t) :
  LanguageCode.of_str (LanguageCode.to_str c) = Some c.
Proof. now destruct c. Qed.

Lemma of_str_some (s : str) (c : LanguageCode.t) :
  LanguageCode.of_str s = Some c -> s = LanguageCode.to_str c.
Proof.
  unfold LanguageCode.of_str. intros H.
  apply find_some in H as [_ H]. apply eqb_eq in H. now symmetry.
Qed.

Lemma registry_name_unknown_iff (s : str) :
  dict_get LANGUAGE_NAMES s (lit "Unknown") = lit "Unknown" <->
  LanguageCode.of_str s = None.
Proof.
  cbv [dict_get LANGUAGE_NAMES LanguageCode.of_str LanguageCode.all find
       LanguageCode.to_str].
  repeat match goal with
         | |- context [PyStr.eqb ?k s] => destruct (PyStr.eqb k s)
         end.
  all: split; intros H; try reflexivity; try discriminate H.
  all: vm_compute in H; discriminate H.
Qed.

(** X14: the registry covers the language codes exactly: every code has a
    display name, a string has one exactly when it is one of the codes, and
    /languages lists the codes once each, in the order of the type, each with
    the name the registry gives it; /status counts that list. *)
Theorem registry_covers_the_language_codes :
  (forall (s : str),
      dict_get LANGUAGE_NAMES s (lit "Unknown") <> lit "Unknown" <->
      exists c, s = LanguageCode.to_str c) /\
  List.map code get_supported_languages =
    List.map LanguageCode.to_str LanguageCode.all /\
  NoDup (List.map code get_supported_languages) /\
  (forall (entry : LanguageEntry),
      In entry get_supported_languages ->
      name entry = dict_get LANGUAGE_NAMES (code entry) (lit "Unknown")) /\
  (forall (g : Globals),
      supported_languages (get_translation_status g) =
      List.length get_supported_languages).
Proof.
  split; [| split; [| split; [| split]]].
  - intros s. rewrite registry_name_unknown_iff. split.
    + destruct (LanguageCode.of_str s) as [c |] eqn:E; [| congruence].
      intros _. exists c. now apply of_str_some.
    + intros [c ->]. now rewrite of_str_to_str.
  - reflexivity.
  - vm_compute.
    repeat (constructor; [cbn; intuition discriminate |]). constructor.
  - intros entry Hin. cbn in Hin.
    repeat (destruct Hin as [<- | Hin]; [reflexivity |]). destruct Hin.
  - intros g. reflexivity.
Qed.

(** ** POST /detect-language *)



(** ** GET /status *)

(** X16: /status predicts the two 503 errors exactly.  It reports image
    translation unavailable exactly when every /translate-image call raises
    the 503 OCR error, and then names no engine; it reports googletrans
    unavailable exactly when /translate with provider "google" raises the 503
    provider error.  deep-translator and mock are always reported available. *)
Theorem status_predicts_unavailability :
  forall (g : Globals),
    (image_available (image_translation (get_translation_status g)) = false <->
     forall (w : World) (file : UploadFile) (target_lang : LanguageCode.t)
            (source_lang : option LanguageCode.t) (provider : ProviderName.t),
       result w (translate_image g file target_lang source_lang provider)
       = Err ocr_unavailable_error) /\
    (engine (image_translation (get_translation_status g)) = None <->
     image_available (image_translation (get_translation_status g)) = false) /\
    (googletrans (providers (text_translation (get_translation_status g))) = false
     <->
     forall (w : World) (text : str) (target_lang : LanguageCode.t)
            (source_lang : option LanguageCode.t),
       result w (translate_text g
                   {| TranslationRequest.text := text;
                      TranslationRequest.target_lang := target_lang;
                      TranslationRequest.source_lang := source_lang;
                      TranslationRequest.provider := Some ProviderName.google |})
       = Err googletrans_unavailable_error) /\
    deep_translator (providers (text_translation (get_translation_status g))) = true /\
    mock (providers (text_translation (get_translation_status g))) = true /\
    text_available (text_translation (get_translation_status g)) = true.
Proof.
  intros g. cbn. split; [| split; [| split]].
  - split.
    + intros Hocr w file target_lang source_lang provider.
      unfold translate_image. now rewrite Hocr.
    + intros H. specialize (H (world_of offline) pdf LanguageCode.en None
                              ProviderName.mock).
      unfold translate_image in H.
      destruct (OCR_AVAILABLE g); [| reflexivity].
      vm_compute in H. discriminate H.
  - destruct (OCR_AVAILABLE g); split; congruence.
  - split.
    + intros Hg w text target_lang source_lang.
      now apply translate_text_google_missing.
    + intros H. specialize (H (world_of offline) (lit "x") LanguageCode.en None).
      destruct (GOOGLETRANS_AVAILABLE g) eqn:Hg; [| reflexivity].
      unfold translate_text, translate_with_googletrans in H.
      rewrite Hg in H. vm_compute in H. discriminate H.
  - repeat split.
Qed.

(** ** Request validation *)

Lemma provider_of_str_some (s : str) (p : ProviderName.t) :
  ProviderName.of_str s = Some p -> s = ProviderName.to_str p.
Proof.
  unfold ProviderName.of_str. intros H.
  apply find_some in H as [_ H]. apply eqb_eq in H. now symmetry.
Qed.

(** X17: a body that passes validation reaches the handler as it was
    sent: the text is the sent text and has 1 to 5000 characters, the target
    and an explicit source or provider are the sent strings, a source left out
    or null is [None], a provider left out is "deep" and a null provider is
    [None]. *)
Theorem validated_request_is_the_body_sent :
  forall (raw : RawRequest) (payload : TranslationRequest.t),
    validate raw = Some payload ->
    raw_text raw = Str (TranslationRequest.text payload) /\
    (1 <= List.length (TranslationRequest.text payload) <= 5000)%nat /\
    raw_target_lang raw =
      Str (LanguageCode.to_str (TranslationRequest.target_lang payload)) /\
    match raw_source_lang raw with
    | Missing | Null => TranslationRequest.source_lang payload = None
    | Str s =>
      exists c, TranslationRequest.source_lang payload = Some c /\
                s = LanguageCode.to_str c
    end /\
    match raw_provider raw with
    | Missing => TranslationRequest.provider payload = Some ProviderName.deep
    | Null => TranslationRequest.provider payload = None
    | Str s =>
      exists p, TranslationRequest.provider payload = Some p /\
                s = ProviderName.to_str p
    end.
Proof.
  intros [rtext rtarget rsource rprovider] payload. unfold validate.
  cbn [raw_text raw_target_lang raw_source_lang raw_provider].
  destruct rtext as [| | text]; try discriminate.
  destruct (negb _) eqn:Hlen; [discriminate |].
  apply negb_false_iff, andb_true_iff in Hlen as [Hlo Hhi].
  apply Nat.leb_le in Hlo, Hhi.
  destruct rtarget as [| | t]; try discriminate.
  destruct (LanguageCode.of_str t) as [target |] eqn:Ht; [| discriminate].
  apply of_str_some in Ht. subst t.
  destruct rsource as [| | s]; destruct rprovider as [| | q].
  all: repeat match goal with
         | |- context [LanguageCode.of_str ?x] =>
           let E := fresh "E" in
           destruct (LanguageCode.of_str x) eqn:E;
           [apply of_str_some in E |]
         | |- context [ProviderName.of_str ?x] =>
           let E := fresh "E" in
           destruct (ProviderName.of_str x) eqn:E;
           [apply provider_of_str_some in E |]
         end.
  all: cbn; try discriminate.
  all: intros H; injection H as <-; cbn.
  all: repeat split; eauto.
Qed.

Lemma validated_request_is_the_body_sent_witness :
  validate hello_body = Some (hello_request (Some ProviderName.deep)) /\
  (1 <= List.length (TranslationRequest.text
                       (hello_request (Some ProviderName.deep))) <= 5000)%nat /\
  TranslationRequest.provider (hello_request (Some ProviderName.deep))
  = Some ProviderName.deep.
Proof.
  split; [reflexivity |].
  pose proof (validated_request_is_the_body_sent hello_body _ eq_refl)
    as (_ & Hlen & _ & _ & Hprov).
  split; [exact Hlen | exact Hprov].
Defined.
